(** * xdl, [src/detach/IosUtils.js]: a shallow embedding and its properties

    The module signs and packages iOS applications.  The parts with a
    semantics of their own are the certificate fingerprint
    ([genCertFingerprint], [ensureCertificateValid]), the export method
    ([resolveExportMethod]) and the entitlements merge inside
    [createEntitlementsFile].  They are embedded here over a small model of
    JavaScript values: primitives are immediate, objects live in a store and
    are passed by reference, so that aliasing and in-place updates are
    visible. *)

From Stdlib Require Import ZArith Ascii Floats.PrimFloat Uint63.
From stdpp Require Import gmap strings list fin_maps pretty sorting.

Local Open Scope list_scope.

(** ** JavaScript values, objects and the store *)

Module Js.

Abbreviation loc := nat (only parsing).

(** A value is a primitive or a reference to an object of the store.
    Numbers are IEEE 754 doubles, as in the language. *)
Inductive val :=
| VUndefined
| VNull
| VBool (b : bool)
| VNum (n : float)
| VStr (s : string)
| VRef (l : loc).

(** The three kinds of objects the module meets: plain objects (plist
    dictionaries, provisioning profile data), dense arrays (plist arrays)
    and Node [Buffer]s (file contents). *)
Inductive object :=
| OPlain (props : gmap string val)
| OArray (elems : list val)
| OBuffer (bytes : list Byte.byte).

(** Objects are allocated at the end of the store and never freed. *)
Abbreviation heap := (list object) (only parsing).

(** Exceptions.  [Error] is [new Error(message)]; [TypeError] is the one the
    engine raises itself (its message is engine specific and left out). *)
Inductive js_error :=
| Error (message : string)
| TypeError.

Inductive result (A : Type) :=
| Ok (a : A)
| Throw (e : js_error).
Arguments Ok {A} a.
Arguments Throw {A} e.

(** What the module does to the outside world, in order. *)
Inductive event :=
| EReadFile (path : string)
| EGlob (pattern : string)
| EWriteFile (path : string) (data : result string) (mode : N)
| ESpawn (cmd : string) (args : list string).

Record state := State { st_heap : heap; st_trace : list event }.

(** Computations: a state and exception monad; the state survives a throw. *)
Definition M (A : Type) : Type := state -> result A * state.

Definition ret {A} (a : A) : M A := fun st => (Ok a, st).

Definition throw {A} (e : js_error) : M A := fun st => (Throw e, st).

Definition bind {A B} (m : M A) (k : A -> M B) : M B :=
  fun st =>
    match m st with
    | (Ok a, st') => k a st'
    | (Throw e, st') => (Throw e, st')
    end.

Definition get_heap : M heap := fun st => (Ok (st_heap st), st).

Definition get_trace : M (list event) := fun st => (Ok (st_trace st), st).

Definition emit (e : event) : M unit :=
  fun st => (Ok tt, State (st_heap st) (st_trace st ++ [e])).

Definition lift_result {A} (r : result A) : M A := fun st => (r, st).

(** [new] object: a fresh location, the next one of the store. *)
Definition alloc (o : object) : M val :=
  fun st => (Ok (VRef (List.length (st_heap st))),
             State (st_heap st ++ [o]) (st_trace st)).

Declare Scope js_scope.
Delimit Scope js_scope with js.
Notation "x <- m ;; k" := (bind m (fun x => k))
  (at level 100, m at next level, right associativity) : js_scope.
Notation "m ;;; k" := (bind m (fun _ => k))
  (at level 100, right associativity) : js_scope.
Local Open Scope js_scope.

(** [Array.prototype.forEach] with a callback that may throw. *)
Fixpoint forEach {A} (l : list A) (f : A -> M unit) : M unit :=
  match l with
  | [] => ret tt
  | x :: l' => f x ;;; forEach l' f
  end.

(** *** Conversions and operators *)

Definition number_of_nat (n : nat) : float :=
  PrimFloat.of_uint63 (Uint63.of_Z (Z.of_nat n)).

(** ToBoolean. *)
Definition truthy (v : val) : bool :=
  match v with
  | VUndefined | VNull => false
  | VBool b => b
  | VNum n => negb (PrimFloat.is_zero n || PrimFloat.is_nan n)
  | VStr s => negb (String.eqb s "")
  | VRef _ => true
  end.

(** [a || b]. *)
Definition or_else (a b : val) : val := if truthy a then a else b.

(** [v === true]. *)
Definition is_true_strict (v : val) : bool :=
  match v with
  | VBool true => true
  | _ => false
  end.

(** The integer-indexed properties of an array-like: key [i] in decimal. *)
Definition index_props {A} (f : A -> val) (l : list A) : gmap string val :=
  list_to_map (imap (fun i x => (pretty i, f x)) l).

Definition string_chars (s : string) : list val :=
  (fun c => VStr (String c EmptyString)) <$> String.list_ascii_of_string s.

(** The own enumerable string-keyed properties of an object: what a spread,
    [in] and a property read see.  The [length] of arrays and buffers is
    own but not enumerable, see [has_property] and [get_property]. *)
Definition own_enumerable (o : object) : gmap string val :=
  match o with
  | OPlain props => props
  | OArray elems => index_props id elems
  | OBuffer bytes =>
      index_props (fun b => VNum (number_of_nat (N.to_nat (Byte.to_N b)))) bytes
  end.

(** The properties [{ ...v }] copies: none for [undefined], [null], booleans
    and numbers, the characters of a string, the own enumerable properties
    of an object. *)
Definition spread_props (h : heap) (v : val) : gmap string val :=
  match v with
  | VStr s => index_props id (string_chars s)
  | VRef l =>
      match h !! l with
      | Some o => own_enumerable o
      | None => ∅
      end
  | _ => ∅
  end.

Definition length_of (h : heap) (v : val) : option nat :=
  match v with
  | VStr s => Some (String.length s)
  | VRef l =>
      match h !! l with
      | Some (OArray elems) => Some (List.length elems)
      | Some (OBuffer bytes) => Some (List.length bytes)
      | _ => None
      end
  | _ => None
  end.

(** [k in o] on an object.  Properties inherited from the built-in
    prototypes are not modelled: no property name this module uses is one. *)
Definition has_property (h : heap) (k : string) (l : loc) : bool :=
  bool_decide (k ∈ dom (spread_props h (VRef l)))
  || (String.eqb k "length" && bool_decide (is_Some (length_of h (VRef l)))).

(** [k in v]: a [TypeError] when [v] is not an object. *)
Definition js_in (k : string) (v : val) : M bool :=
  match v with
  | VRef l => h <- get_heap ;; ret (has_property h k l)
  | _ => throw TypeError
  end.

(** [v[k]] (and [v.k]): a [TypeError] on [undefined] and [null],
    [undefined] for a missing property. *)
Definition get_property (k : string) (v : val) : M val :=
  match v with
  | VUndefined | VNull => throw TypeError
  | _ =>
      h <- get_heap ;;
      match spread_props h v !! k with
      | Some x => ret x
      | None =>
          match length_of h v with
          | Some n => ret (if String.eqb k "length" then VNum (number_of_nat n)
                           else VUndefined)
          | None => ret VUndefined
          end
      end
  end.

(** [o[k] = x] on a plain object, in place.  The module assigns only to
    plain objects it has just created; other targets are left alone. *)
Definition set_property (target : val) (k : string) (x : val) : M unit :=
  fun st =>
    match target with
    | VRef l =>
        match st_heap st !! l with
        | Some (OPlain props) =>
            (Ok tt, State (<[l := OPlain (<[k := x]> props)]> (st_heap st))
                          (st_trace st))
        | _ => (Ok tt, st)
        end
    | _ => (Ok tt, st)
    end.

(** [{ ...v }]: a new plain object. *)
Definition spread (v : val) : M val :=
  h <- get_heap ;; alloc (OPlain (spread_props h v)).

End Js.

(** ** lodash *)

Module Lodash.
Import Js.
Local Open Scope js_scope.

(** [_.includes(array, value)] on an array of strings. *)
Definition includes (l : list string) (x : string) : bool :=
  bool_decide (x ∈ l).

(** The keys [baseSet] refuses to set (lodash 4.17.21, the guard against
    prototype pollution): [basePickBy] copies each picked property with
    [baseSet], so [pickBy] never copies these three. *)
Definition guardedKeys : list string :=
  ["__proto__"; "constructor"; "prototype"].

(** [_.pickBy(object, predicate)]: a new plain object with the properties
    the predicate accepts, the guarded keys apart; the predicate receives
    the value, then the key. *)
Definition pickBy (o : val) (predicate : val -> string -> bool) : M val :=
  h <- get_heap ;;
  alloc (OPlain (filter (fun kv : string * val =>
                           predicate kv.2 kv.1
                           && negb (includes guardedKeys kv.1) = true)
                        (spread_props h o))).

End Lodash.

(** ** Strings *)

Module Str.

(** The line feed of a template literal. *)
Definition nl : string := String (Ascii.ascii_of_nat 10) EmptyString.

(** [Array.prototype.join('')] on an array of strings. *)
Definition join (chunks : list string) : string :=
  foldr String.append EmptyString chunks.

(** [String.prototype.indexOf]: the first position at which [search]
    occurs in [s], or [-1]. *)
Fixpoint indexOf_from (i : Z) (s search : string) : Z :=
  if String.prefix search s then i
  else match s with
       | EmptyString => (-1)%Z
       | String _ s' => indexOf_from (i + 1)%Z s' search
       end.

Definition indexOf (s search : string) : Z := indexOf_from 0 s search.

(** [String.prototype.toUpperCase], on the ASCII letters; other characters
    of the 7-bit range are unchanged (the module applies it to hexadecimal
    digits). *)
Definition upper_char (c : Ascii.ascii) : Ascii.ascii :=
  let n := Ascii.N_of_ascii c in
  if ((97 <=? n) && (n <=? 122))%N then Ascii.ascii_of_N (n - 32) else c.

Fixpoint toUpperCase (s : string) : string :=
  match s with
  | EmptyString => EmptyString
  | String c s' => String (upper_char c) (toUpperCase s')
  end.

(** [t] occurs in [s]. *)
Definition occurs_in (t s : string) : Prop :=
  exists before after, s = before +:+ t +:+ after.

Definition is_upper_hex (c : Ascii.ascii) : bool :=
  bool_decide (c ∈ String.list_ascii_of_string "0123456789ABCDEF").

End Str.

(** ** Node: [Buffer.prototype.toString('base64')] *)

Module Node.

Definition base64_alphabet : list Ascii.ascii :=
  String.list_ascii_of_string
    "ABCDEFGHIJKLMNOPQRSTUVWXYZabcdefghijklmnopqrstuvwxyz0123456789+/".

Definition base64_char (n : N) : Ascii.ascii :=
  default "="%char (base64_alphabet !! N.to_nat n).

(** RFC 4648 with padding: three bytes give four characters. *)
Fixpoint base64_of_N (bs : list N) : string :=
  match bs with
  | [] => EmptyString
  | [a] =>
      String (base64_char (a / 4))
        (String (base64_char ((a mod 4) * 16)) "==")
  | [a; b] =>
      String (base64_char (a / 4))
        (String (base64_char ((a mod 4) * 16 + b / 16))
           (String (base64_char ((b mod 16) * 4)) "="))
  | a :: b :: c :: rest =>
      String (base64_char (a / 4))
        (String (base64_char ((a mod 4) * 16 + b / 16))
           (String (base64_char ((b mod 16) * 4 + c / 64))
              (String (base64_char (c mod 64)) (base64_of_N rest))))
  end%N.

Definition toString_base64 (bytes : list Byte.byte) : string :=
  base64_of_N (Byte.to_N <$> bytes).

End Node.

(** ** node-forge: SHA-1 and hexadecimal output *)

Module Sha1.
Local Open Scope Z_scope.

Definition mask32 : Z := 0xFFFFFFFF.
Definition add32 (a b : Z) : Z := Z.land (a + b) mask32.
Definition rotl32 (n x : Z) : Z :=
  Z.land (Z.lor (Z.shiftl x n) (Z.shiftr x (32 - n))) mask32.
Definition not32 (x : Z) : Z := Z.lxor x mask32.

(** The [n] bytes of [x], most significant first. *)
Definition be_bytes (n : nat) (x : Z) : list Z :=
  (fun i => Z.land (Z.shiftr x (8 * Z.of_nat (n - 1 - i))) 255) <$> seq 0 n.

Definition word_of_bytes (bs : list Z) : Z :=
  foldl (fun acc b => Z.lor (Z.shiftl acc 8) b) 0 bs.

(** Padding: a one bit, zeros up to 56 modulo 64, the bit length on 8 bytes. *)
Definition pad (msg : list Z) : list Z :=
  let len := Z.of_nat (length msg) in
  (msg ++ [0x80] ++ repeat 0 (Z.to_nat ((55 - len) mod 64))
       ++ be_bytes 8 (8 * len))%list.

Definition words (block : list Z) : list Z :=
  (fun i => word_of_bytes (take 4 (drop (4 * i) block))) <$> seq 0 16.

Definition extend (ws : list Z) : list Z :=
  let t := length ws in
  let w := fun k => nth (t - k) ws 0 in
  (ws ++ [rotl32 1 (Z.lxor (Z.lxor (Z.lxor (w 3%nat) (w 8%nat)) (w 14%nat))
                           (w 16%nat))])%list.

Definition schedule (block : list Z) : list Z := Nat.iter 64 extend (words block).

Record hstate := H { h0 : Z; h1 : Z; h2 : Z; h3 : Z; h4 : Z }.

Definition round_f (t : nat) (b c d : Z) : Z :=
  if (t <? 20)%nat then Z.lor (Z.land b c) (Z.land (not32 b) d)
  else if (t <? 40)%nat then Z.lxor (Z.lxor b c) d
  else if (t <? 60)%nat then
    Z.lor (Z.lor (Z.land b c) (Z.land b d)) (Z.land c d)
  else Z.lxor (Z.lxor b c) d.

Definition round_k (t : nat) : Z :=
  if (t <? 20)%nat then 0x5A827999
  else if (t <? 40)%nat then 0x6ED9EBA1
  else if (t <? 60)%nat then 0x8F1BBCDC
  else 0xCA62C1D6.

Definition step (s : hstate) (tw : nat * Z) : hstate :=
  let '(t, w) := tw in
  let tmp :=
    add32 (add32 (add32 (add32 (rotl32 5 (h0 s))
                               (round_f t (h1 s) (h2 s) (h3 s)))
                        (h4 s)) (round_k t)) w in
  H tmp (h0 s) (rotl32 30 (h1 s)) (h2 s) (h3 s).

Definition compress (s : hstate) (block : list Z) : hstate :=
  let r := foldl step s (zip (seq 0 80) (schedule block)) in
  H (add32 (h0 s) (h0 r)) (add32 (h1 s) (h1 r)) (add32 (h2 s) (h2 r))
    (add32 (h3 s) (h3 r)) (add32 (h4 s) (h4 r)).

Definition init : hstate :=
  H 0x67452301 0xEFCDAB89 0x98BADCFE 0x10325476 0xC3D2E1F0.

Definition blocks (msg : list Z) : list (list Z) :=
  (fun i => take 64 (drop (64 * i) msg)) <$> seq 0 (length msg / 64).

Definition digest_bytes (msg : list Z) : list Z :=
  let s := foldl compress init (blocks (pad msg)) in
  (be_bytes 4 (h0 s) ++ be_bytes 4 (h1 s) ++ be_bytes 4 (h2 s)
     ++ be_bytes 4 (h3 s) ++ be_bytes 4 (h4 s))%list.

(** [forge.md.sha1.create().update(msg).digest()]: the message and the
    digest are binary strings, one character per byte. *)
Definition digest (msg : string) : string :=
  String.string_of_list_ascii
    ((fun b => Ascii.ascii_of_N (Z.to_N b))
       <$> digest_bytes ((fun c => Z.of_N (Ascii.N_of_ascii c))
                           <$> String.list_ascii_of_string msg)).

End Sha1.

Module ForgeUtil.

Definition hex_digits : list Ascii.ascii :=
  String.list_ascii_of_string "0123456789abcdef".

Definition hex_digit (n : N) : Ascii.ascii :=
  default "0"%char (hex_digits !! N.to_nat n).

(** [ByteBuffer.prototype.toHex]: two lower-case digits per byte. *)
Fixpoint toHex (bytes : string) : string :=
  match bytes with
  | EmptyString => EmptyString
  | String c rest =>
      let n := Ascii.N_of_ascii c in
      String (hex_digit (n / 16)) (String (hex_digit (n mod 16)) (toHex rest))
  end.

End ForgeUtil.

(** ** The collaborators: node-forge, the file system, processes, plist *)

(** The PKCS#12 and X.509 codecs of node-forge, taken as given.  Decoders
    and encoders may throw; [getBags_certBag] lists the bags of type
    [certBag] in order, each with its [cert] field when it has one. *)
Class Forge := {
  asn1 : Type;
  pkcs12 : Type;
  certificate : Type;
  util_decode64 : string -> string;
  asn1_fromDer : string -> Js.result asn1;
  pkcs12_pkcs12FromAsn1 : asn1 -> string -> Js.result pkcs12;
  getBags_certBag : pkcs12 -> list (option certificate);
  pki_certificateToAsn1 : certificate -> Js.result asn1;
  asn1_toDer : asn1 -> Js.result string;
}.

(** The environment answers each request from the history of the requests
    made so far.  [plist_parse] returns the parsed value and the objects it
    allocates, or the message of the error it throws. *)
Class Env := {
  fs_readFile : list Js.event -> string -> Js.result (list Byte.byte);
  fs_writeFile :
    list Js.event -> string -> Js.result string -> N -> Js.result unit;
  glob : list Js.event -> string -> Js.result (list string);
  spawnAsyncThrowError :
    list Js.event -> string -> list string -> Js.result (list string);
  path_join : string -> string -> string;
  plist_parse : string -> Js.heap -> string + (Js.val * list Js.object);
  plist_build : Js.heap -> Js.val -> Js.result string;
  ToString : Js.heap -> Js.val -> string;
}.

(** The host of the build: the environment of the process, the two
    functions of [path] that [buildIPA] uses, and a process started with an
    [env] option ([spawnAsyncThrowError] with a third argument). *)
Class Host := {
  process_env : gmap string string;
  path_basename : string -> string;
  path_dirname : string -> string;
  spawnWithEnv :
    list Js.event -> string -> list string -> gmap string Js.val
    -> Js.result (list string);
}.

(** ** The module *)

Module IosUtils.
Import Js.
Local Open Scope js_scope.

Section WithCollaborators.
Context `{forge : Forge} `{env : Env}.

(** [String(v)]: the identity on strings, the environment's conversion
    otherwise (numbers, buffers, ...). *)
Definition js_String (v : val) : M string :=
  match v with
  | VStr s => ret s
  | _ => h <- get_heap ;; ret (ToString h v)
  end.

(** [await fs.readFile(path)]: a new [Buffer]. *)
Definition readFile (path : string) : M val :=
  tr <- get_trace ;;
  emit (EReadFile path) ;;;
  bytes <- lift_result (fs_readFile tr path) ;;
  alloc (OBuffer bytes).

Definition writeFile (path : string) (data : result string) (mode : N)
  : M unit :=
  tr <- get_trace ;;
  emit (EWriteFile path data mode) ;;;
  lift_result (fs_writeFile tr path data mode).

(** [const { output } = await spawnAsyncThrowError(cmd, args, ...)]. *)
Definition spawn (cmd : string) (args : list string) : M (list string) :=
  tr <- get_trace ;;
  emit (ESpawn cmd args) ;;;
  lift_result (spawnAsyncThrowError tr cmd args).

Definition globAsync (pattern : string) : M (list string) :=
  tr <- get_trace ;;
  emit (EGlob pattern) ;;;
  lift_result (glob tr pattern).

(** Lines 21-45. *)
Definition genCertFingerprint (p12Buffer passwordRaw : val) : M string :=
  h <- get_heap ;;
  p12Buffer <-
    match p12Buffer with
    | VStr s => ret s
    | VRef l =>
        match h !! l with
        | Some (OBuffer bytes) => ret (Node.toString_base64 bytes)
        | _ => throw (Error "genCertFingerprint only takes strings and buffers.")
        end
    | _ => throw (Error "genCertFingerprint only takes strings and buffers.")
    end ;;
  password <- js_String (or_else passwordRaw (VStr "")) ;;
  let p12Der := util_decode64 p12Buffer in
  p12Asn1 <- lift_result (asn1_fromDer p12Der) ;;
  p12 <- lift_result (pkcs12_pkcs12FromAsn1 p12Asn1 password) ;;
  match head (getBags_certBag p12) with
  | Some (Some certData) =>
      certAsn1 <- lift_result (pki_certificateToAsn1 certData) ;;
      certDer <- lift_result (asn1_toDer certAsn1) ;;
      ret (Str.toUpperCase (ForgeUtil.toHex (Sha1.digest certDer)))
  | _ => throw (Error "genCertFingerprint: couldn't find cert bag")
  end.

(** Lines 47-56. *)
Definition findIdentitiesByTeamID (teamID : string) : M string :=
  output <- spawn "security"
              ["find-identity"; "-v"; "-s"; "(" +:+ teamID +:+ ")"] ;;
  ret (Str.join output).

(** Lines 10-19. *)
Definition ensureCertificateValid (certPath : string) (certPassword : val)
    (teamID : string) : M string :=
  certData <- readFile certPath ;;
  fingerprint <- genCertFingerprint certData certPassword ;;
  identities <- findIdentitiesByTeamID teamID ;;
  let isValid := negb (Str.indexOf identities fingerprint =? -1)%Z in
  if negb isValid then
    throw (Error ("codesign ident not present in find-identity: "
                    +:+ fingerprint +:+ Str.nl +:+ identities))
  else ret fingerprint.

(** Lines 143-151. *)
Definition resolveExportMethod (plistData : val) : M string :=
  provisionedDevices <- get_property "ProvisionedDevices" plistData ;;
  if truthy provisionedDevices then ret "ad-hoc"
  else
    provisionsAllDevices <- get_property "ProvisionsAllDevices" plistData ;;
    if is_true_strict provisionsAllDevices then ret "enterprise"
    else ret "app-store".

(** Lines 153-167. *)
Definition entitlementTransferRules : list string := [
  "com.apple.developer.associated-domains";
  "com.apple.developer.healthkit";
  "com.apple.developer.homekit";
  "com.apple.developer.icloud-container-identifiers";
  "com.apple.developer.icloud-services";
  "com.apple.developer.in-app-payments";
  "com.apple.developer.networking.vpn.api";
  "com.apple.developer.ubiquity-container-identifiers";
  "com.apple.developer.ubiquity-kvstore-identifier";
  "com.apple.external-accessory.wireless-configuration";
  "com.apple.security.application-groups";
  "inter-app-audio";
  "keychain-access-groups"
].

(** Lines 169-183. *)
Definition blacklistedEntitlementKeys : list string := [
  "com.apple.developer.icloud-container-development-container-identifiers";
  "com.apple.developer.icloud-container-environment";
  "com.apple.developer.icloud-container-identifiers";
  "com.apple.developer.icloud-services";
  "com.apple.developer.restricted-resource-mode";
  "com.apple.developer.ubiquity-container-identifiers";
  "com.apple.developer.ubiquity-kvstore-identifier";
  "inter-app-audio";
  "com.apple.developer.homekit";
  "com.apple.developer.healthkit";
  "com.apple.developer.in-app-payments";
  "com.apple.developer.maps";
  "com.apple.external-accessory.wireless-configuration"
].

(** The body of the loop of lines 210-214, for one rule. *)
Definition transferRule (archiveEntitlementsData entitlements : val)
    (rule : string) : M unit :=
  present <- js_in rule archiveEntitlementsData ;;
  if present then
    x <- get_property rule archiveEntitlementsData ;;
    set_property entitlements rule x
  else ret tt.

(** Lines 209-218 of [createEntitlementsFile], the entitlements merge, over
    given rule and blacklist arrays. *)
Definition mergeWith (rules blacklist : list string)
    (decodedProvisioningProfileEntitlements archiveEntitlementsData : val)
  : M val :=
  entitlements <- spread decodedProvisioningProfileEntitlements ;;
  forEach rules (transferRule archiveEntitlementsData entitlements) ;;;
  Lodash.pickBy entitlements
    (fun _ key => negb (Lodash.includes blacklist key)).

Definition mergeEntitlements : val -> val -> M val :=
  mergeWith entitlementTransferRules blacklistedEntitlementKeys.

(** [_.attempt(plist.parse, text)] followed by the [_.isError] test of
    lines 204-207. *)
Definition parsePlist (text : string) : M val :=
  fun st =>
    match plist_parse text (st_heap st) with
    | inl message =>
        (Throw (Error ("Error when parsing plist: " +:+ message)), st)
    | inr (v, objs) => (Ok v, State (st_heap st ++ objs) (st_trace st))
    end.

(** [0o755]. *)
Definition mode_755 : N := 493.

(** Lines 202-233: what follows the discovery of the archive's
    entitlements file. *)
Definition generateEntitlements (generatedEntitlementsPath : string)
    (decodedProvisioningProfileEntitlements : val)
    (archiveEntitlementsPath : string) : M unit :=
  archiveEntitlementsRaw <- readFile archiveEntitlementsPath ;;
  text <- js_String archiveEntitlementsRaw ;;
  archiveEntitlementsData <- parsePlist text ;;
  generatedEntitlements <-
    mergeEntitlements decodedProvisioningProfileEntitlements
      archiveEntitlementsData ;;
  h <- get_heap ;;
  let generatedEntitlementsPlistData := plist_build h generatedEntitlements in
  writeFile generatedEntitlementsPath generatedEntitlementsPlistData mode_755 ;;;
  output <- spawn "/usr/libexec/PlistBuddy"
              ["-x"; "-c"; "Print"; generatedEntitlementsPath] ;;
  let plistDataReformatted := Str.join output in
  writeFile generatedEntitlementsPath (Ok plistDataReformatted) mode_755.

(** Lines 185-234. *)
Definition createEntitlementsFile (generatedEntitlementsPath : string)
    (plistData : val) (archivePath : string) : M unit :=
  decodedProvisioningProfileEntitlements <-
    get_property "Entitlements" plistData ;;
  let entitlementsPattern :=
    path_join archivePath
      "Products/Applications/ExpoKitApp.app/*.entitlements" in
  entitlementsPaths <- globAsync entitlementsPattern ;;
  if (length entitlementsPaths =? 0)%nat then
    throw (Error "Didn't find any generated entitlements file in archive.")
  else if negb (length entitlementsPaths =? 1)%nat then
    throw (Error "Found more than one entitlements file.")
  else
    match entitlementsPaths !! 0%nat with
    | Some archiveEntitlementsPath =>
        generateEntitlements generatedEntitlementsPath
          decodedProvisioningProfileEntitlements archiveEntitlementsPath
    | None => throw TypeError
    end.

End WithCollaborators.

(** *** The export options, the archive export and the resigning *)

Section WithHost.
Context `{env : Env} `{host : Host}.

Definition dquote : string := String (Ascii.ascii_of_nat 34) EmptyString.

(** What the template of lines 68-82 puts between the export method and
    the team. *)
Definition afterMethod : string :=
  "</string>" +:+ Str.nl +:+
  "    <key>teamID</key>" +:+ Str.nl +:+
  "    <string>".

(** Lines 63-82.  The four fields are interpolated as they are. *)
Definition createExportOptionsPlist
    (bundleIdentifier provisioningProfileUUID exportMethod teamID : string)
  : string :=
  "<?xml version=" +:+ dquote +:+ "1.0" +:+ dquote +:+ " encoding="
    +:+ dquote +:+ "UTF-8" +:+ dquote +:+ "?>" +:+ Str.nl +:+
  "<!DOCTYPE plist PUBLIC " +:+ dquote +:+ "-//Apple//DTD PLIST 1.0//EN"
    +:+ dquote +:+ " " +:+ dquote
    +:+ "http://www.apple.com/DTDs/PropertyList-1.0.dtd" +:+ dquote +:+ ">"
    +:+ Str.nl +:+
  "<plist version=" +:+ dquote +:+ "1.0" +:+ dquote +:+ ">" +:+ Str.nl +:+
  "  <dict>" +:+ Str.nl +:+
  "    <key>method</key>" +:+ Str.nl +:+
  "    <string>" +:+ exportMethod +:+ afterMethod +:+ teamID
    +:+ "</string>" +:+ Str.nl +:+
  "    <key>provisioningProfiles</key>" +:+ Str.nl +:+
  "    <dict>" +:+ Str.nl +:+
  "      <key>" +:+ bundleIdentifier +:+ "</key>" +:+ Str.nl +:+
  "      <string>" +:+ provisioningProfileUUID +:+ "</string>" +:+ Str.nl +:+
  "    </dict>" +:+ Str.nl +:+
  "  </dict>" +:+ Str.nl +:+
  "</plist>".

(** [0o666], the mode of a file [fs.writeFile] creates when none is given. *)
Definition mode_666 : N := 438.

(** Lines 58-61. *)
Definition writeExportOptionsPlistFile (plistPath : string)
    (bundleIdentifier provisioningProfileUUID exportMethod teamID : string)
  : M unit :=
  let toWrite :=
    createExportOptionsPlist bundleIdentifier provisioningProfileUUID
      exportMethod teamID in
  writeFile plistPath (Ok toWrite) mode_666.

(** [{ ...a, ...b }] on two dictionaries: the properties of [b] win. *)
Definition spread2 (a b : gmap string val) : gmap string val := b ∪ a.

(** [process.env], whose values are strings. *)
Definition processEnv : gmap string val := VStr <$> process_env.

(** Lines 265-272. *)
Definition fastlaneEnvVars (teamID password : val) : gmap string val :=
  {[ "FASTLANE_SKIP_UPDATE_CHECK" := VNum 1;
     "FASTLANE_DISABLE_COLORS" := VNum 1;
     "FASTLANE_TEAM_ID" := teamID;
     "FASTLANE_PASSWORD" := password;
     "CI" := VNum 1;
     "LC_ALL" := VStr "en_US.UTF-8" ]}.

(** [await spawnAsyncThrowError(cmd, args, { env, ... })]; the result is
    not used. *)
Definition spawnEnv (cmd : string) (args : list string)
    (childEnv : gmap string val) : M unit :=
  tr <- get_trace ;;
  emit (ESpawn cmd args) ;;;
  lift_result (spawnWithEnv tr cmd args childEnv) ;;;
  ret tt.

(** Lines 264-279; [credentials] is [{ teamID, password }]. *)
Definition runFastlane (teamID password : val) (fastlaneArgs : list string)
  : M unit :=
  spawnEnv "fastlane" fastlaneArgs
    (spread2 processEnv (fastlaneEnvVars teamID password)).

(** [path.Dir(p)]: the [path] module has no property [Dir], and calling
    [undefined] throws. *)
Definition path_Dir (p : string) : M string := throw TypeError.

(** [OTHER_CODE_SIGN_FLAGS="--keychain ${keychainPath}"]. *)
Definition codeSignFlags (keychainPath : string) : string :=
  "OTHER_CODE_SIGN_FLAGS=" +:+ dquote +:+ "--keychain " +:+ keychainPath
    +:+ dquote.

(** Lines 84-141.  The arguments of a call are evaluated before the call;
    [client] is [false] when the argument is left out. *)
Definition buildIPA (ipaPath workspace archivePath codeSignIdentity
    exportOptionsPlistPath keychainPath exportMethod : string)
    (teamID password : val) (client : val) : M unit :=
  let client := match client with VUndefined => VBool false | _ => client end in
  if truthy client then
    exportPath <- path_Dir ipaPath ;;
    spawnEnv "xcodebuild"
      ["-exportArchive";
       "-archivePath"; archivePath;
       "-exportOptionsPlist"; exportOptionsPlistPath;
       "-exportPath"; exportPath;
       codeSignFlags keychainPath]
      (spread2 processEnv {["CI" := VNum 1]})
  else
    runFastlane teamID password
      ["gym";
       "-n"; path_basename ipaPath;
       "--workspace"; workspace;
       "--scheme"; "ExpoKitApp";
       "--archive_path"; archivePath;
       "--skip_build_archive"; "true";
       "-i"; codeSignIdentity;
       "--export_options"; exportOptionsPlistPath;
       "--export_method"; exportMethod;
       "--export_xcargs"; codeSignFlags keychainPath;
       "-o"; path_dirname ipaPath;
       "--verbose"].

(** Lines 236-262. *)
Definition resignIPA (codeSignIdentity entitlementsPath
    provisioningProfilePath sourceIpaPath destIpaPath keychainPath : string)
    (teamID password : val) : M unit :=
  spawn "cp" ["-rf"; sourceIpaPath; destIpaPath] ;;;
  runFastlane teamID password
    ["sigh"; "resign"; "--verbose";
     "--entitlements"; entitlementsPath;
     "--signing_identity"; codeSignIdentity;
     "--keychain_path"; keychainPath;
     "--provisioning_profile"; provisioningProfilePath;
     destIpaPath].

End WithHost.

End IosUtils.

(** * The vocabulary of the properties *)

Import Js.
Local Open Scope js_scope.

(** ** The merge and the export method *)

(** The value a property read returns, as a function of the store. *)
Definition read_property (h : heap) (k : string) (v : val) : val :=
  match spread_props h v !! k with
  | Some x => x
  | None =>
      match length_of h v with
      | Some n => if String.eqb k "length" then VNum (number_of_nat n)
                  else VUndefined
      | None => VUndefined
      end
  end.

(** One turn of the loop on the working copy's properties. *)
Definition transfer (h : heap) (archive : loc) (working : gmap string val)
    (rule : string) : gmap string val :=
  if has_property h rule archive
  then <[rule := read_property h rule (VRef archive)]> working
  else working.

(** The keys the last step of the merge leaves out: the blacklisted ones,
    and the three [pickBy] never copies. *)
Definition dropped (blacklist : list string) : list string :=
  blacklist ++ Lodash.guardedKeys.

(** The properties [pickBy] copies, for the predicate of line 217. *)
Definition picked (blacklist : list string) (kv : string * val) : Prop :=
  negb (Lodash.includes blacklist kv.1)
  && negb (Lodash.includes Lodash.guardedKeys kv.1) = true.

#[local] Instance picked_dec blacklist kv : Decision (picked blacklist kv).
Proof. unfold picked. apply _. Defined.

(** The working copy after the loop of lines 210-214. *)
Definition transferredProps (h : heap) (profile : val) (archive : loc)
  : gmap string val :=
  foldl (transfer h archive) (spread_props h profile)
    IosUtils.entitlementTransferRules.

(** The dictionary [pickBy] makes of it at lines 215-218. *)
Definition mergedProps (h : heap) (profile : val) (archive : loc)
  : gmap string val :=
  filter (picked IosUtils.blacklistedEntitlementKeys)
    (transferredProps h profile archive).

(** The store after the merge: the working copy, then the result. *)
Definition mergedStore (h : heap) (profile : val) (archive : loc) : heap :=
  h ++ [OPlain (transferredProps h profile archive);
        OPlain (mergedProps h profile archive)].

(** What the merged dictionary holds at a key. *)
Definition merged_at (rules blacklist : list string)
    (P A : gmap string val) (k : string) : option val :=
  if decide (k ∈ blacklist) then None
  else match (if decide (k ∈ rules) then A !! k else None) with
       | Some x => Some x
       | None => P !! k
       end.

(** [typeof v === 'object'] for the values of the model, [null] apart. *)
Definition is_object (v : val) : bool :=
  match v with
  | VRef _ => true
  | _ => false
  end.

(** The profile declares a list of provisioned devices that is not empty. *)
Definition declares_devices (h : list object) (P : gmap string val) : bool :=
  match P !! "ProvisionedDevices" with
  | Some (VRef l) =>
      match h !! l with
      | Some (OArray (_ :: _)) => true
      | _ => false
      end
  | _ => false
  end.

(** The policy in the words of the specification: [ad-hoc] for a declared,
    non-empty list of provisioned devices, otherwise [enterprise] when the
    flag is exactly [true], otherwise [app-store]. *)
Definition spec_resolveExportMethod (h : list object) (P : gmap string val)
  : string :=
  if declares_devices h P then "ad-hoc"
  else if is_true_strict (default VUndefined (P !! "ProvisionsAllDevices"))
       then "enterprise"
       else "app-store".

(** The text of a fingerprint: forty upper-case hexadecimal digits. *)
Definition is_fingerprint (fp : string) : Prop :=
  String.length fp = 40
  /\ Forall (fun c => Str.is_upper_hex c = true) (String.list_ascii_of_string fp).

(** ** The errors of the specification, as the module raises them *)

Definition UnsupportedInputType : js_error :=
  Error "genCertFingerprint only takes strings and buffers.".

Definition MissingCertificateBag : js_error :=
  Error "genCertFingerprint: couldn't find cert bag".

Definition CertificateNotTrusted (fingerprint identities : string) : js_error :=
  Error ("codesign ident not present in find-identity: "
           +:+ fingerprint +:+ Str.nl +:+ identities).

Definition ArchiveEntitlementsNotFound : js_error :=
  Error "Didn't find any generated entitlements file in archive.".

Definition ArchiveEntitlementsAmbiguous : js_error :=
  Error "Found more than one entitlements file.".

(** ** The fingerprint and the discovery *)

(** [typeof v === 'string'] and [Buffer.isBuffer(v)]. *)
Definition is_string (v : val) : bool :=
  match v with
  | VStr _ => true
  | _ => false
  end.

Definition is_buffer (h : list object) (v : val) : bool :=
  match v with
  | VRef l =>
      match h !! l with
      | Some (OBuffer _) => true
      | _ => false
      end
  | _ => false
  end.

(** The request [findIdentitiesByTeamID] makes. *)
Definition find_identity (teamID : string) : event :=
  ESpawn "security" ["find-identity"; "-v"; "-s"; "(" +:+ teamID +:+ ")"].

(** [e.message]. *)
Definition error_message (e : js_error) : string :=
  match e with
  | Error message => message
  | TypeError => ""
  end.

Section Collaborators.
Context `{forge : Forge} `{env : Env}.

(** The base64 text the function decodes, for a string or a buffer. *)
Definition p12_text (h : list object) (v : val) : option string :=
  match v with
  | VStr s => Some s
  | VRef l =>
      match h !! l with
      | Some (OBuffer bytes) => Some (Node.toString_base64 bytes)
      | _ => None
      end
  | _ => None
  end.

(** [String(passwordRaw || '')]. *)
Definition password_text (h : list object) (passwordRaw : val) : string :=
  match or_else passwordRaw (VStr "") with
  | VStr s => s
  | v => ToString h v
  end.

(** The steps after the input checks, on the text and the password. *)
Definition fingerprint_of (text password : string) : result string :=
  match asn1_fromDer (util_decode64 text) with
  | Throw e => Throw e
  | Ok p12Asn1 =>
      match pkcs12_pkcs12FromAsn1 p12Asn1 password with
      | Throw e => Throw e
      | Ok p12 =>
          match head (getBags_certBag p12) with
          | Some (Some certData) =>
              match pki_certificateToAsn1 certData with
              | Throw e => Throw e
              | Ok certAsn1 =>
                  match asn1_toDer certAsn1 with
                  | Throw e => Throw e
                  | Ok certDer =>
                      Ok (Str.toUpperCase
                            (ForgeUtil.toHex (Sha1.digest certDer)))
                  end
              end
          | _ => Throw MissingCertificateBag
          end
      end
  end.

(** The pattern of lines 192-195. *)
Definition entitlementsPattern (archivePath : string) : string :=
  path_join archivePath "Products/Applications/ExpoKitApp.app/*.entitlements".

End Collaborators.

(** ** The rest of the module *)

(** The transfer rules that are not blacklisted. *)
Definition effectiveTransferRules : list string := [
  "com.apple.developer.associated-domains";
  "com.apple.developer.networking.vpn.api";
  "com.apple.security.application-groups";
  "keychain-access-groups"
].

(** The names [fastlaneEnvVars] sets. *)
Definition fastlaneNames : list string := [
  "FASTLANE_SKIP_UPDATE_CHECK"; "FASTLANE_DISABLE_COLORS";
  "FASTLANE_TEAM_ID"; "FASTLANE_PASSWORD"; "CI"; "LC_ALL"
].

(** The request of the first line of [resignIPA]. *)
Definition copy_ipa (sourceIpaPath destIpaPath : string) : event :=
  ESpawn "cp" ["-rf"; sourceIpaPath; destIpaPath].

(** The arguments [resignIPA] gives to fastlane. *)
Definition sighArgs (codeSignIdentity entitlementsPath
    provisioningProfilePath destIpaPath keychainPath : string) : list string :=
  ["sigh"; "resign"; "--verbose";
   "--entitlements"; entitlementsPath;
   "--signing_identity"; codeSignIdentity;
   "--keychain_path"; keychainPath;
   "--provisioning_profile"; provisioningProfilePath;
   destIpaPath].

(** The arguments [buildIPA] gives to fastlane. *)
Definition gymArgs `{host : Host} (ipaPath workspace archivePath
    codeSignIdentity exportOptionsPlistPath keychainPath exportMethod : string)
  : list string :=
  ["gym";
   "-n"; path_basename ipaPath;
   "--workspace"; workspace;
   "--scheme"; "ExpoKitApp";
   "--archive_path"; archivePath;
   "--skip_build_archive"; "true";
   "-i"; codeSignIdentity;
   "--export_options"; exportOptionsPlistPath;
   "--export_method"; exportMethod;
   "--export_xcargs"; IosUtils.codeSignFlags keychainPath;
   "-o"; path_dirname ipaPath;
   "--verbose"].

(** A request that writes a file. *)
Definition is_write (e : event) : bool :=
  match e with
  | EWriteFile _ _ _ => true
  | _ => false
  end.

(** A request that starts a process. *)
Definition is_spawn (e : event) : bool :=
  match e with
  | ESpawn _ _ => true
  | _ => false
  end.

(** The first character is a decimal digit, as in the key of an index. *)
Definition starts_with_digit (s : string) : bool :=
  match s with
  | String c _ => bool_decide (c ∈ String.list_ascii_of_string "0123456789")
  | EmptyString => false
  end.

(** An array or a buffer, not a dictionary. *)
Definition is_indexed (o : object) : bool :=
  match o with
  | OPlain _ => false
  | _ => true
  end.

(** The three export methods. *)
Definition exportMethods : list string := ["ad-hoc"; "enterprise"; "app-store"].

(** ** Stores for the examples *)

(** The example of the specification: profile [{}], archive
    [{"inter-app-audio": true}]. *)
Definition audio_store : state :=
  State [OPlain ∅; OPlain {["inter-app-audio" := VBool true]}] [].

(** A profile with a key [pickBy] never copies, and an empty archive. *)
Definition constructor_store : state :=
  State [OPlain {["constructor" := VBool true]}; OPlain ∅] [].

(** A profile whose only key is another of those keys. *)
Definition prototype_store : state :=
  State [OPlain {["prototype" := VStr "x"]}; OPlain ∅] [].

(** A profile with one key the merge keeps, one it overrides and one it
    drops. *)
Definition frame_store : state :=
  State [OPlain {["get-task-allow" := VBool false;
                   "keychain-access-groups" := VStr "p";
                   "com.apple.developer.maps" := VBool true]};
         OPlain {["keychain-access-groups" := VStr "a"]}] [].

(** The example of the specification for the default rules: the two
    dictionaries and the arrays they refer to. *)
Definition keychain_store : state :=
  State [OPlain {["keychain-access-groups" := VRef 1;
                   "com.apple.developer.maps" := VBool true]};
         OArray [VStr "x"];
         OPlain {["keychain-access-groups" := VRef 3]};
         OArray [VStr "y"; VStr "z"]] [].

(** A profile whose list of provisioned devices is empty. *)
Definition no_devices_store : state :=
  State [OPlain {["ProvisionedDevices" := VRef 1]}; OArray []] [].

(** ** A small world to run the module in *)

Module Sample.

(** Codecs that keep the text as it is: a container decodes when it is not
    empty and the password is "secret"; it holds one certificate when it
    starts with "MI", none otherwise. *)
Definition forge : Forge := {|
  asn1 := string;
  pkcs12 := list (option string);
  certificate := string;
  util_decode64 := fun text => text;
  asn1_fromDer := fun der =>
    if String.eqb der "" then Throw (Error "Too few bytes to parse DER.")
    else Ok der;
  pkcs12_pkcs12FromAsn1 := fun p12Asn1 password =>
    if String.eqb password "secret"
    then Ok (if String.prefix "MI" p12Asn1 then [Some p12Asn1] else [])
    else Throw (Error "PKCS#12 MAC could not be verified. Invalid password?");
  getBags_certBag := fun p12 => p12;
  pki_certificateToAsn1 := fun certData => Ok certData;
  asn1_toDer := fun certAsn1 => Ok certAsn1;
|}.

Definition certBytes : list Byte.byte := [Byte.x30; Byte.x82; Byte.x01].

Definition fingerprint : string :=
  Eval vm_compute in Str.toUpperCase (ForgeUtil.toHex (Sha1.digest "MIIB")).

Definition identities : list string :=
  ["  1) " +:+ fingerprint +:+ " iPhone Distribution: Example (TEAM123456)"
     +:+ Str.nl;
   "     1 valid identities found" +:+ Str.nl].

Definition archiveFile : string :=
  "App.xcarchive/Products/Applications/ExpoKitApp.app/ExpoKitApp.entitlements".

(** One certificate file, one entitlements file in the archive, an identity
    store that lists the certificate for every team. *)
Definition env : Env := {|
  fs_readFile := fun _ path =>
    if String.eqb path "dist.p12" then Ok certBytes
    else if String.eqb path archiveFile then Ok []
    else Throw (Error "ENOENT: no such file or directory");
  fs_writeFile := fun _ _ _ _ => Ok tt;
  glob := fun _ pattern =>
    if String.eqb pattern
         "App.xcarchive/Products/Applications/ExpoKitApp.app/*.entitlements"
    then Ok [archiveFile]
    else if String.eqb pattern
              "Two.xcarchive/Products/Applications/ExpoKitApp.app/*.entitlements"
    then Ok ["Two.xcarchive/a.entitlements"; "Two.xcarchive/b.entitlements"]
    else Ok [];
  spawnAsyncThrowError := fun _ cmd _ =>
    if String.eqb cmd "security" then Ok identities else Ok [];
  path_join := fun a b => a +:+ "/" +:+ b;
  plist_parse := fun _ h =>
    inr (VRef (length h),
         [OPlain {["keychain-access-groups" := VStr "TEAM123456.*"]}]);
  plist_build := fun _ _ => Ok "<plist/>";
  ToString := fun _ _ => "";
|}.

Definition start : state := State [] [].

Definition profile : state := State [OPlain ∅] [].

(** A host with a stale password in its environment, where every process
    started with an environment succeeds. *)
Definition host : Host := {|
  process_env := {["PATH" := "/usr/bin"; "FASTLANE_PASSWORD" := "stale"]};
  path_basename := fun p => p;
  path_dirname := fun p => p;
  spawnWithEnv := fun _ _ _ _ => Ok [];
|}.

(** The same world where no process starts. *)
Definition noProcess : Env := {|
  fs_readFile := @fs_readFile env;
  fs_writeFile := @fs_writeFile env;
  glob := @glob env;
  spawnAsyncThrowError := fun _ _ _ => Throw (Error "spawn ENOENT");
  path_join := @path_join env;
  plist_parse := @plist_parse env;
  plist_build := @plist_build env;
  ToString := @ToString env;
|}.

(** The same world where no file can be read. *)
Definition noFiles : Env := {|
  fs_readFile := fun _ _ => Throw (Error "ENOENT: no such file or directory");
  fs_writeFile := @fs_writeFile env;
  glob := @glob env;
  spawnAsyncThrowError := @spawnAsyncThrowError env;
  path_join := @path_join env;
  plist_parse := @plist_parse env;
  plist_build := @plist_build env;
  ToString := @ToString env;
|}.

(** The same world where no plist parses and none can be built. *)
Definition noPlist : Env := {|
  fs_readFile := @fs_readFile env;
  fs_writeFile := @fs_writeFile env;
  glob := @glob env;
  spawnAsyncThrowError := @spawnAsyncThrowError env;
  path_join := @path_join env;
  plist_parse := fun _ _ => inl "Unexpected end of input";
  plist_build := fun _ _ => Throw (Error "Invalid object type");
  ToString := @ToString env;
|}.

(** The keys of the dictionary at a value, in alphabetical order, each as
    a [<key>] element. *)
Definition keysOf (h : list object) (v : val) : string :=
  match v with
  | VRef l =>
      match h !! l with
      | Some (OPlain props) =>
          foldr (fun k text => "<key>" +:+ k +:+ "</key>" +:+ text) EmptyString
            (merge_sort (fun a b => Is_true (String.leb a b))
               (map fst (map_to_list props)))
      | _ => EmptyString
      end
  | _ => EmptyString
  end.

(** The same world where [plist.build] lists the keys of the dictionary it
    is given. *)
Definition listing : Env := {|
  fs_readFile := @fs_readFile env;
  fs_writeFile := @fs_writeFile env;
  glob := @glob env;
  spawnAsyncThrowError := @spawnAsyncThrowError env;
  path_join := @path_join env;
  plist_parse := @plist_parse env;
  plist_build := fun h v => Ok ("<dict>" +:+ keysOf h v +:+ "</dict>");
  ToString := @ToString env;
|}.

(** The same world where plists parse and none can be built: the error
    names the keys of the dictionary that was given. *)
Definition noBuild : Env := {|
  fs_readFile := @fs_readFile env;
  fs_writeFile := @fs_writeFile env;
  glob := @glob env;
  spawnAsyncThrowError := @spawnAsyncThrowError env;
  path_join := @path_join env;
  plist_parse := @plist_parse env;
  plist_build := fun h v => Throw (Error ("Cannot build " +:+ keysOf h v));
  ToString := @ToString env;
|}.

(** A decoded profile whose entitlements hold a blacklisted key. *)
Definition entitled : state :=
  State [OPlain {["Entitlements" := VRef 1]};
         OPlain {["get-task-allow" := VBool true;
                  "com.apple.developer.maps" := VBool true]}] [].

(** Codecs for a container whose first certificate bag holds no
    certificate and whose second holds one. *)
Definition emptyFirstBag : Forge := {|
  asn1 := string;
  pkcs12 := list (option string);
  certificate := string;
  util_decode64 := fun text => text;
  asn1_fromDer := fun der => Ok der;
  pkcs12_pkcs12FromAsn1 := fun p12Asn1 _ => Ok [None; Some p12Asn1];
  getBags_certBag := fun p12 => p12;
  pki_certificateToAsn1 := fun certData => Ok certData;
  asn1_toDer := fun certAsn1 => Ok certAsn1;
|}.

(** A plist whose root is an array. *)
Definition arrayArchive : state :=
  State [OPlain {["get-task-allow" := VBool true;
                   "com.apple.developer.maps" := VBool true]};
         OArray [VStr "keychain-access-groups"]] [].

End Sample.

(** * Properties *)

(** ** The model on known values *)

Example sha1_abc :
  Str.toUpperCase (ForgeUtil.toHex (Sha1.digest "abc"))
  = "A9993E364706816ABA3E25717850C26C9CD0D89D".
Proof. vm_compute. reflexivity. Qed.

Example sha1_empty :
  ForgeUtil.toHex (Sha1.digest "") = "da39a3ee5e6b4b0d3255bfef95601890afd80709".
Proof. vm_compute. reflexivity. Qed.

Example sha1_two_blocks :
  ForgeUtil.toHex
    (Sha1.digest "abcdbcdecdefdefgefghfghighijhijkijkljklmklmnlmnomnopnopq")
  = "84983e441c3bd26ebaae4aa1f95129e5e54670f1".
Proof. vm_compute. reflexivity. Qed.

Example base64_examples :
  Node.base64_of_N [102; 111; 111; 98; 97]%N = "Zm9vYmE="
  /\ Node.base64_of_N [102; 111; 111; 98]%N = "Zm9vYg=="
  /\ Node.base64_of_N [102; 111; 111]%N = "Zm9v".
Proof. vm_compute. auto. Qed.

Example indexOf_examples :
  Str.indexOf "find-identity" "id" = 5%Z
  /\ Str.indexOf "find-identity" "" = 0%Z
  /\ Str.indexOf "" "" = 0%Z
  /\ Str.indexOf "find-identity" "x" = (-1)%Z
  /\ Str.indexOf "" "x" = (-1)%Z.
Proof. vm_compute. auto. Qed.

Example truthy_examples :
  truthy (VNum 0) = false /\ truthy (VNum (-0)) = false
  /\ truthy (VNum PrimFloat.nan) = false /\ truthy (VNum 2) = true
  /\ truthy (VStr "") = false /\ truthy (VStr "0") = true
  /\ truthy (VRef 0) = true.
Proof. vm_compute. auto 10. Qed.

(** What a spread copies from a string, an array and a buffer. *)
Example spread_props_examples :
  spread_props [] (VStr "ab") = {["0" := VStr "a"; "1" := VStr "b"]}
  /\ spread_props [OArray [VBool true; VNull]] (VRef 0)
     = {["0" := VBool true; "1" := VNull]}
  /\ spread_props [OBuffer [Byte.x41]] (VRef 0) = {["0" := VNum 65]}
  /\ spread_props [] VUndefined = ∅
  /\ spread_props [] (VNum 7) = ∅.
Proof. vm_compute. auto. Qed.

(** ** The store *)

(** Reading an object that was there before an allocation. *)
Lemma spread_props_app (h ext : heap) (l : loc) :
  is_Some (h !! l) ->
  spread_props (h ++ ext) (VRef l) = spread_props h (VRef l).
Proof.
  intros [o Ho]. unfold spread_props.
  by rewrite (lookup_app_l_Some _ _ _ _ Ho), Ho.
Qed.

Lemma length_of_app (h ext : heap) (l : loc) :
  is_Some (h !! l) -> length_of (h ++ ext) (VRef l) = length_of h (VRef l).
Proof.
  intros [o Ho]. unfold length_of.
  by rewrite (lookup_app_l_Some _ _ _ _ Ho), Ho.
Qed.

Lemma has_property_app (h ext : heap) (k : string) (l : loc) :
  is_Some (h !! l) -> has_property (h ++ ext) k l = has_property h k l.
Proof.
  intros Hl. unfold has_property.
  by rewrite spread_props_app, length_of_app.
Qed.

Lemma get_property_ref (k : string) (l : loc) (st : state) :
  get_property k (VRef l) st = (Ok (read_property (st_heap st) k (VRef l)), st).
Proof.
  unfold get_property, read_property, bind, get_heap, ret.
  destruct (spread_props (st_heap st) (VRef l) !! k); [done|].
  by destruct (length_of (st_heap st) (VRef l)).
Qed.

Lemma read_property_app (h ext : heap) (k : string) (l : loc) :
  is_Some (h !! l) ->
  read_property (h ++ ext) k (VRef l) = read_property h k (VRef l).
Proof.
  intros Hl. unfold read_property.
  by rewrite spread_props_app, length_of_app.
Qed.

(** *** Index keys *)

Lemma pretty_N_go_digit (x : N) (s : string) :
  starts_with_digit s = true -> starts_with_digit (pretty_N_go x s) = true.
Proof.
  revert s. induction (N.lt_wf_0 x) as [x _ IH]; intros s Hs.
  assert (x = 0 \/ 0 < x)%N as [->|Hx] by lia; [done|].
  rewrite pretty_N_go_step by done. apply IH; [by apply N.div_lt|].
  unfold pretty_N_char. by repeat case_match.
Qed.

(** The decimal text of a number starts with a digit. *)
Lemma pretty_nat_digit (i : nat) : starts_with_digit (pretty i) = true.
Proof.
  unfold pretty, pretty_nat, pretty, pretty_N.
  case_decide as Hzero; [done|].
  rewrite pretty_N_go_step by lia. apply pretty_N_go_digit.
  unfold pretty_N_char. by repeat case_match.
Qed.

Lemma index_props_dom {X} (f : X -> val) (l : list X) (k : string) :
  k ∈ dom (index_props f l) -> starts_with_digit k = true.
Proof.
  unfold index_props. rewrite elem_of_dom. intros [v Hv].
  apply elem_of_list_to_map_2 in Hv.
  apply elem_of_lookup_imap in Hv as (i & x & [= -> _] & _).
  apply pretty_nat_digit.
Qed.

Lemma guardedKeys_no_digit (k : string) :
  k ∈ Lodash.guardedKeys -> starts_with_digit k = false.
Proof.
  unfold Lodash.guardedKeys. rewrite !elem_of_cons, elem_of_nil.
  intros [->|[->|[->|[]]]]; reflexivity.
Qed.

(** A value that is not an object has index keys only. *)
Lemma spread_props_primitive (h : list object) (v : val) (k : string) :
  is_object v = false ->
  k ∈ dom (spread_props h v) -> starts_with_digit k = true.
Proof.
  intros Hv. destruct v; try discriminate; cbn [spread_props];
    try (rewrite dom_empty_L; by intros ?%not_elem_of_empty).
  apply index_props_dom.
Qed.

(** ** The entitlements merge, step by step *)

Lemma js_in_ref (k : string) (l : loc) (st : state) :
  js_in k (VRef l) st = (Ok (has_property (st_heap st) k l), st).
Proof. reflexivity. Qed.

Lemma set_property_fresh (h : heap) (tr : list event)
    (working : gmap string val) (k : string) (x : val) :
  set_property (VRef (length h)) k x (State (h ++ [OPlain working]) tr)
  = (Ok tt, State (h ++ [OPlain (<[k := x]> working)]) tr).
Proof.
  unfold set_property. cbn [st_heap st_trace].
  rewrite lookup_app_r by lia. rewrite Nat.sub_diag. cbn [lookup list_lookup].
  rewrite insert_app_r_alt by lia. by rewrite Nat.sub_diag.
Qed.

Lemma transferRule_run (h : heap) (tr : list event) (archive : loc)
    (working : gmap string val) (rule : string) :
  is_Some (h !! archive) ->
  IosUtils.transferRule (VRef archive) (VRef (length h)) rule
    (State (h ++ [OPlain working]) tr)
  = (Ok tt, State (h ++ [OPlain (transfer h archive working rule)]) tr).
Proof.
  intros Ha. unfold IosUtils.transferRule, bind.
  rewrite js_in_ref. cbn [st_heap].
  rewrite has_property_app by done. unfold transfer.
  destruct (has_property h rule archive); [|done].
  rewrite get_property_ref. cbn [st_heap].
  rewrite read_property_app by done. apply set_property_fresh.
Qed.

Lemma forEach_transferRule_run (rules : list string) (h : heap)
    (tr : list event) (archive : loc) (working : gmap string val) :
  is_Some (h !! archive) ->
  forEach rules (IosUtils.transferRule (VRef archive) (VRef (length h)))
    (State (h ++ [OPlain working]) tr)
  = (Ok tt, State (h ++ [OPlain (foldl (transfer h archive) working rules)]) tr).
Proof.
  intros Ha. revert working.
  induction rules as [|rule rules IH]; intros working; simpl; [done|].
  unfold bind. rewrite transferRule_run by done. apply IH.
Qed.

(** The merge on an archive value that is an object of the store: it
    allocates the working copy, then the result, and touches nothing else. *)
Lemma mergeWith_run (rules blacklist : list string) (h : heap)
    (tr : list event) (profile : val) (archive : loc) :
  is_Some (h !! archive) ->
  let working := foldl (transfer h archive) (spread_props h profile) rules in
  IosUtils.mergeWith rules blacklist profile (VRef archive) (State h tr)
  = (Ok (VRef (S (length h))),
     State (h ++ [OPlain working;
                  OPlain (filter (picked blacklist) working)]) tr).
Proof.
  intros Ha working. unfold IosUtils.mergeWith, spread, bind at 1 2.
  simpl. unfold bind at 1.
  rewrite forEach_transferRule_run by done. fold working.
  unfold Lodash.pickBy, bind, get_heap, alloc. simpl.
  rewrite lookup_app_r by lia. rewrite Nat.sub_diag. simpl.
  rewrite length_app. simpl. rewrite Nat.add_1_r.
  rewrite <- app_assoc. done.
Qed.

(** ** The merge on two dictionaries *)

Section PlainArchive.
Variables (h : list object) (archive : nat) (A : gmap string val).
Hypothesis archive_plain : h !! archive = Some (OPlain A).

Lemma has_property_plain (k : string) :
  has_property h k archive = bool_decide (is_Some (A !! k)).
Proof.
  unfold has_property, spread_props, length_of. rewrite archive_plain.
  cbn [own_enumerable]. rewrite andb_false_r, orb_false_r.
  apply bool_decide_ext, elem_of_dom.
Qed.

Lemma transfer_plain (working : gmap string val) (rule : string) :
  transfer h archive working rule
  = match A !! rule with
    | Some x => <[rule := x]> working
    | None => working
    end.
Proof.
  unfold transfer. rewrite has_property_plain.
  unfold read_property, spread_props. rewrite archive_plain.
  cbn [own_enumerable]. destruct (A !! rule) as [x|] eqn:HA.
  - by rewrite bool_decide_true by eauto.
  - by rewrite bool_decide_false by (intros [? ?]; done).
Qed.

(** After the loop a rule's key holds the archive's value when the archive
    has the key; every other key is as before. *)
Lemma transferred_lookup (rules : list string) (working : gmap string val)
    (k : string) :
  foldl (transfer h archive) working rules !! k
  = match (if decide (k ∈ rules) then A !! k else None) with
    | Some x => Some x
    | None => working !! k
    end.
Proof.
  revert working. induction rules as [|r rules IH]; intros working.
  - cbn [foldl]. by rewrite decide_False by apply not_elem_of_nil.
  - cbn [foldl]. rewrite IH, transfer_plain.
    destruct (decide (k ∈ rules)) as [Hin|Hnin].
    + rewrite decide_True by (by apply list_elem_of_further).
      destruct (A !! k) eqn:HAk; [done|].
      destruct (A !! r) eqn:HAr; [|done].
      rewrite lookup_insert_ne; [done|congruence].
    + destruct (decide (k = r)) as [->|Hne].
      * rewrite decide_True by apply list_elem_of_here.
        destruct (A !! r); [by rewrite lookup_insert_eq|done].
      * rewrite decide_False by (rewrite elem_of_cons; tauto).
        destruct (A !! r); [by rewrite lookup_insert_ne|done].
Qed.

End PlainArchive.

Lemma picked_iff (blacklist : list string) (k : string) (x : val) :
  picked blacklist (k, x) <-> k ∉ dropped blacklist.
Proof.
  unfold picked, dropped, Lodash.includes. cbn [fst].
  rewrite andb_true_iff, !negb_true_iff, !bool_decide_eq_false.
  rewrite elem_of_app. tauto.
Qed.

Lemma dropped_iff (blacklist : list string) (k : string) :
  k ∈ dropped blacklist <-> k ∈ blacklist \/ k ∈ Lodash.guardedKeys.
Proof. apply elem_of_app. Qed.

(** The merge of a profile value and an archive dictionary: the run, the
    result and the final store. *)
Lemma mergeWith_plain (rules blacklist : list string) (st : state)
    (profile : val) (archive : nat) (A : gmap string val) :
  st_heap st !! archive = Some (OPlain A) ->
  exists working R : gmap string val,
    IosUtils.mergeWith rules blacklist profile (VRef archive) st
    = (Ok (VRef (S (length (st_heap st)))),
       State (st_heap st ++ [OPlain working; OPlain R]) (st_trace st))
    /\ forall k, R !! k
         = merged_at rules (dropped blacklist)
             (spread_props (st_heap st) profile) A k.
Proof.
  intros HA. destruct st as [h tr]. cbn [st_heap st_trace] in *.
  eexists _, _. split.
  - apply mergeWith_run. eauto.
  - intros k. unfold merged_at.
    destruct (decide (k ∈ dropped blacklist)) as [Hb|Hb].
    + apply map_lookup_filter_None. right. intros x _.
      rewrite picked_iff. tauto.
    + rewrite <- (transferred_lookup h archive A HA rules).
      destruct (foldl _ _ rules !! k) as [x|] eqn:Hk.
      * apply map_lookup_filter_Some. split; [done|].
        by apply picked_iff.
      * apply map_lookup_filter_None. by left.
Qed.

(** The merge of the module, on an archive value that is an object. *)
Lemma mergeEntitlements_run (h : list object) (tr : list event)
    (profile : val) (archive : nat) :
  is_Some (h !! archive) ->
  IosUtils.mergeEntitlements profile (VRef archive) (State h tr)
  = (Ok (VRef (S (length h))), State (mergedStore h profile archive) tr).
Proof. intros Ha. by apply mergeWith_run. Qed.

Lemma mergedStore_result (h : list object) (profile : val) (archive : nat) :
  mergedStore h profile archive !! S (length h)
  = Some (OPlain (mergedProps h profile archive)).
Proof.
  unfold mergedStore. rewrite lookup_app_r by lia.
  by replace (S (length h) - length h) with 1 by lia.
Qed.

Lemma mergedProps_lookup (h : list object) (profile : val) (archive : nat)
    (A : gmap string val) (k : string) :
  h !! archive = Some (OPlain A) ->
  mergedProps h profile archive !! k
  = merged_at IosUtils.entitlementTransferRules
      (dropped IosUtils.blacklistedEntitlementKeys) (spread_props h profile)
      A k.
Proof.
  intros HA. unfold mergedProps, transferredProps, merged_at.
  destruct (decide (k ∈ dropped _)) as [Hb|Hb].
  - apply map_lookup_filter_None. right. intros x _.
    rewrite picked_iff. tauto.
  - rewrite <- (transferred_lookup h archive A HA).
    destruct (foldl _ _ _ !! k) as [x|] eqn:Hk.
    + apply map_lookup_filter_Some. split; [done|]. by apply picked_iff.
    + apply map_lookup_filter_None. by left.
Qed.

Lemma merged_at_dom (rules blacklist : list string) (P A R : gmap string val) :
  (forall k, R !! k = merged_at rules blacklist P A k) ->
  dom R = (dom P ∪ (list_to_set rules ∩ dom A)) ∖ list_to_set blacklist.
Proof.
  intros HR. apply set_eq. intros k.
  rewrite elem_of_difference, elem_of_union, elem_of_intersection,
    !elem_of_list_to_set, !elem_of_dom, HR.
  unfold merged_at.
  destruct (decide (k ∈ blacklist)) as [Hb|Hb].
  - split; [intros [? ?]; done|tauto].
  - destruct (decide (k ∈ rules)) as [Hr|Hr].
    + destruct (A !! k) as [x|] eqn:HAk.
      * split; [intros _|eauto]. split; [|done]. right. eauto.
      * split; [tauto|]. intros [[?|[_ [? ?]]] _]; done.
    + split; [tauto|]. intros [[?|[? _]] _]; done.
Qed.

Lemma in_list_by_computation (k : string) (l : list string) :
  bool_decide (k ∈ l) = true -> k ∈ l.
Proof. apply bool_decide_eq_true_1. Qed.

Lemma not_in_list_by_computation (k : string) (l : list string) :
  bool_decide (k ∈ l) = false -> k ∉ l.
Proof. apply bool_decide_eq_false_1. Qed.

(** No transfer rule is a key [pickBy] never copies. *)
Lemma transferRules_not_guarded (k : string) :
  k ∈ IosUtils.entitlementTransferRules -> k ∉ Lodash.guardedKeys.
Proof.
  assert (Forall (fun k => k ∉ Lodash.guardedKeys)
            IosUtils.entitlementTransferRules) as Hall.
  { repeat constructor;
      apply not_in_list_by_computation; vm_compute; reflexivity. }
  rewrite Forall_forall in Hall. apply Hall.
Qed.

Lemma not_dropped (blacklist : list string) (k : string) :
  k ∉ blacklist -> k ∉ Lodash.guardedKeys -> k ∉ dropped blacklist.
Proof. rewrite dropped_iff. tauto. Qed.

Lemma lookup_app_old (h ext : list object) (l : nat) (o : object) :
  h !! l = Some o -> (h ++ ext) !! l = Some o.
Proof. apply lookup_app_l_Some. Qed.

Lemma lookup_result (h : list object) (w r : object) :
  (h ++ [w; r]) !! S (length h) = Some r.
Proof.
  rewrite lookup_app_r by lia.
  by replace (S (length h) - length h) with 1 by lia.
Qed.

(** C1, as the specification states it, fails on a profile key that
    [pickBy] never copies: the profile [{"constructor": true}] and the
    archive [{}] merge into [{}], while the stated key set holds
    "constructor". *)
Lemma merge_key_set_constructor :
  IosUtils.mergeEntitlements (VRef 0) (VRef 1) constructor_store
  = (Ok (VRef 3),
     State [OPlain {["constructor" := VBool true]}; OPlain ∅;
            OPlain {["constructor" := VBool true]}; OPlain ∅] [])
  /\ "constructor"
     ∈ (dom ({["constructor" := VBool true]} : gmap string val)
          ∪ (list_to_set IosUtils.entitlementTransferRules
               ∩ dom (∅ : gmap string val)))
         ∖ (list_to_set IosUtils.blacklistedEntitlementKeys : gset string)
  /\ "constructor" ∉ dom (∅ : gmap string val).
Proof.
  split; [vm_compute; reflexivity|]. split; [|set_solver].
  apply elem_of_difference. split; [set_solver|].
  rewrite elem_of_list_to_set. apply not_in_list_by_computation.
  vm_compute. reflexivity.
Qed.

(** C1, amended.  For two dictionaries, the keys of the merge result are
    the keys of the profile, together with the transfer rules that the
    archive has, without the blacklisted keys and without the three keys
    [pickBy] never copies ([__proto__], [constructor], [prototype]).  In
    particular a key that is both a transfer rule and blacklisted is never
    in the result, and neither is a key that is neither in the profile nor a
    transfer rule. *)
Theorem merge_key_set (st : state) (profile archive : nat)
    (P A : gmap string val) :
  st_heap st !! profile = Some (OPlain P) ->
  st_heap st !! archive = Some (OPlain A) ->
  exists (result : nat) (R : gmap string val) (st' : state),
    IosUtils.mergeEntitlements (VRef profile) (VRef archive) st
    = (Ok (VRef result), st')
    /\ st_heap st' !! result = Some (OPlain R)
    /\ dom R
       = ((dom P ∪ (list_to_set IosUtils.entitlementTransferRules ∩ dom A))
            ∖ list_to_set IosUtils.blacklistedEntitlementKeys)
           ∖ list_to_set Lodash.guardedKeys
    /\ (forall k, k ∈ IosUtils.entitlementTransferRules ->
                  k ∈ IosUtils.blacklistedEntitlementKeys -> k ∉ dom R)
    /\ (forall k, k ∉ dom P -> k ∉ IosUtils.entitlementTransferRules ->
                  k ∉ dom R).
Proof.
  intros HP HA.
  destruct (mergeWith_plain IosUtils.entitlementTransferRules
              IosUtils.blacklistedEntitlementKeys st (VRef profile) archive A HA)
    as (working & R & Hrun & HR).
  cbn [spread_props] in HR. rewrite HP in HR. cbn [own_enumerable] in HR.
  pose proof (merged_at_dom _ _ _ _ _ HR) as Hdom.
  assert (dom R
          = ((dom P ∪ (list_to_set IosUtils.entitlementTransferRules ∩ dom A))
               ∖ list_to_set IosUtils.blacklistedEntitlementKeys)
              ∖ list_to_set Lodash.guardedKeys) as Hdom'.
  { rewrite Hdom. unfold dropped. rewrite list_to_set_app_L.
    apply set_eq. intros k.
    rewrite !elem_of_difference, (elem_of_union (list_to_set _)). tauto. }
  exists (S (length (st_heap st))), R. eexists.
  split; [exact Hrun|]. split; [apply lookup_result|].
  split; [exact Hdom'|]. rewrite Hdom'. split.
  - intros k _ Hb.
    rewrite !elem_of_difference, (elem_of_list_to_set k
      IosUtils.blacklistedEntitlementKeys).
    tauto.
  - intros k HkP Hkr.
    rewrite !elem_of_difference, elem_of_union, elem_of_intersection,
      (elem_of_list_to_set k IosUtils.entitlementTransferRules).
    tauto.
Qed.

Lemma merge_key_set_witness :
  exists (result : nat) (R : gmap string val) (st' : state),
    IosUtils.mergeEntitlements (VRef 0) (VRef 1) audio_store
    = (Ok (VRef result), st')
    /\ st_heap st' !! result = Some (OPlain R)
    /\ dom R
       = ((dom (∅ : gmap string val)
             ∪ (list_to_set IosUtils.entitlementTransferRules
                  ∩ dom ({["inter-app-audio" := VBool true]}
                           : gmap string val)))
            ∖ list_to_set IosUtils.blacklistedEntitlementKeys)
           ∖ list_to_set Lodash.guardedKeys
    /\ (forall k, k ∈ IosUtils.entitlementTransferRules ->
                  k ∈ IosUtils.blacklistedEntitlementKeys -> k ∉ dom R)
    /\ (forall k, k ∉ dom (∅ : gmap string val) ->
                  k ∉ IosUtils.entitlementTransferRules -> k ∉ dom R).
Proof.
  apply (merge_key_set audio_store 0 1 ∅ {["inter-app-audio" := VBool true]});
    reflexivity.
Defined.

(** On that example the result is the empty dictionary. *)
Example merge_inter_app_audio :
  IosUtils.mergeEntitlements (VRef 0) (VRef 1) audio_store
  = (Ok (VRef 3),
     State [OPlain ∅; OPlain {["inter-app-audio" := VBool true]};
            OPlain {["inter-app-audio" := VBool true]}; OPlain ∅] []).
Proof. vm_compute. reflexivity. Qed.

(** C10, as the specification states it, fails on a profile key that
    [pickBy] never copies: "prototype" is a key of the profile, is not
    blacklisted and is no transfer rule, and the result does not have it. *)
Lemma merge_frame_prototype :
  IosUtils.mergeEntitlements (VRef 0) (VRef 1) prototype_store
  = (Ok (VRef 3),
     State [OPlain {["prototype" := VStr "x"]}; OPlain ∅;
            OPlain {["prototype" := VStr "x"]}; OPlain ∅] [])
  /\ ({["prototype" := VStr "x"]} : gmap string val) !! "prototype"
     = Some (VStr "x")
  /\ ("prototype" ∉ IosUtils.blacklistedEntitlementKeys)
  /\ ("prototype" ∉ IosUtils.entitlementTransferRules)
  /\ (∅ : gmap string val) !! "prototype" = None.
Proof.
  split; [vm_compute; reflexivity|]. split; [reflexivity|].
  split; [apply not_in_list_by_computation; vm_compute; reflexivity|].
  split; [apply not_in_list_by_computation; vm_compute; reflexivity|].
  reflexivity.
Qed.

(** C10, amended.  A key of the profile that is not blacklisted, is none of
    the three keys [pickBy] never copies ([__proto__], [constructor],
    [prototype]), and is not a transfer rule or is missing from the archive,
    keeps the profile's value.  The merge changes no object that existed
    before it, the two inputs among them: the result is a new object, and
    nothing is requested from the outside world. *)
Theorem merge_frame (st : state) (profile archive : nat)
    (P A : gmap string val) :
  st_heap st !! profile = Some (OPlain P) ->
  st_heap st !! archive = Some (OPlain A) ->
  exists (result : nat) (R : gmap string val) (st' : state),
    IosUtils.mergeEntitlements (VRef profile) (VRef archive) st
    = (Ok (VRef result), st')
    /\ st_heap st' !! result = Some (OPlain R)
    /\ (forall k v,
          P !! k = Some v ->
          k ∉ IosUtils.blacklistedEntitlementKeys ->
          k ∉ Lodash.guardedKeys ->
          k ∉ IosUtils.entitlementTransferRules \/ A !! k = None ->
          R !! k = Some v)
    /\ (forall l o, st_heap st !! l = Some o -> st_heap st' !! l = Some o)
    /\ st_heap st' !! profile = Some (OPlain P)
    /\ st_heap st' !! archive = Some (OPlain A)
    /\ st_heap st !! result = None
    /\ st_trace st' = st_trace st.
Proof.
  intros HP HA.
  destruct (mergeWith_plain IosUtils.entitlementTransferRules
              IosUtils.blacklistedEntitlementKeys st (VRef profile) archive A HA)
    as (working & R & Hrun & HR).
  cbn [spread_props] in HR. rewrite HP in HR. cbn [own_enumerable] in HR.
  exists (S (length (st_heap st))), R. eexists.
  split; [exact Hrun|]. cbn [st_heap st_trace].
  split; [apply lookup_result|]. split.
  { intros k v HPk Hb Hg Hr. rewrite HR. unfold merged_at.
    rewrite decide_False by (rewrite dropped_iff; tauto).
    destruct Hr as [Hr|Hr]; [by rewrite decide_False|].
    rewrite Hr. by destruct (decide _). }
  split; [intros l o; apply lookup_app_old|].
  split; [by apply lookup_app_old|]. split; [by apply lookup_app_old|].
  split; [|done]. apply lookup_ge_None. lia.
Qed.

Lemma merge_frame_witness :
  exists (result : nat) (R : gmap string val) (st' : state),
    IosUtils.mergeEntitlements (VRef 0) (VRef 1) frame_store
    = (Ok (VRef result), st')
    /\ st_heap st' !! result = Some (OPlain R)
    /\ (forall k v,
          ({["get-task-allow" := VBool false;
             "keychain-access-groups" := VStr "p";
             "com.apple.developer.maps" := VBool true]} : gmap string val)
            !! k = Some v ->
          k ∉ IosUtils.blacklistedEntitlementKeys ->
          k ∉ Lodash.guardedKeys ->
          k ∉ IosUtils.entitlementTransferRules
          \/ ({["keychain-access-groups" := VStr "a"]} : gmap string val) !! k
             = None ->
          R !! k = Some v)
    /\ (forall l o,
          st_heap frame_store !! l = Some o -> st_heap st' !! l = Some o)
    /\ st_heap st' !! 0
       = Some (OPlain {["get-task-allow" := VBool false;
                         "keychain-access-groups" := VStr "p";
                         "com.apple.developer.maps" := VBool true]})
    /\ st_heap st' !! 1
       = Some (OPlain {["keychain-access-groups" := VStr "a"]})
    /\ st_heap frame_store !! result = None
    /\ st_trace st' = st_trace frame_store.
Proof.
  apply (merge_frame frame_store 0 1); reflexivity.
Defined.

Example merge_frame_store :
  exists st',
    IosUtils.mergeEntitlements (VRef 0) (VRef 1) frame_store
    = (Ok (VRef 3), st')
    /\ st_heap st' !! 3
       = Some (OPlain {["get-task-allow" := VBool false;
                         "keychain-access-groups" := VStr "a"]}).
Proof. eexists. split; vm_compute; reflexivity. Qed.

(** Whatever the profile says, a transfer rule that is not blacklisted
    takes the archive's value when the archive has the key. *)
Lemma merge_transfer_wins (st : state) (profile : val) (archive : nat)
    (A : gmap string val) (k : string) (x : val) :
  st_heap st !! archive = Some (OPlain A) ->
  k ∈ IosUtils.entitlementTransferRules ->
  k ∉ IosUtils.blacklistedEntitlementKeys ->
  A !! k = Some x ->
  exists (R : gmap string val) (st' : state),
    IosUtils.mergeEntitlements profile (VRef archive) st
    = (Ok (VRef (S (length (st_heap st)))), st')
    /\ st_heap st' !! S (length (st_heap st)) = Some (OPlain R)
    /\ R !! k = Some x.
Proof.
  intros HA Hr Hb HAk.
  destruct (mergeWith_plain IosUtils.entitlementTransferRules
              IosUtils.blacklistedEntitlementKeys st profile archive A HA)
    as (working & R & Hrun & HR).
  exists R. eexists. split; [exact Hrun|]. split; [apply lookup_result|].
  rewrite HR. unfold merged_at.
  rewrite decide_False
    by (apply not_dropped; [done|by apply transferRules_not_guarded]).
  by rewrite decide_True, HAk.
Qed.

(** C5. With the thirteen transfer rules and the thirteen blacklisted keys
    of the module, the profile
    [{"keychain-access-groups": ["x"], "com.apple.developer.maps": true}] and
    the archive [{"keychain-access-groups": ["y","z"]}] merge into exactly
    [{"keychain-access-groups": ["y","z"]}]: the result's only key refers to
    the archive's array, which still holds "y" and "z". *)
Theorem merge_keychain_example (st : state) (profile archive x y : nat) :
  st_heap st !! profile
  = Some (OPlain {["keychain-access-groups" := VRef x;
                    "com.apple.developer.maps" := VBool true]}) ->
  st_heap st !! archive
  = Some (OPlain {["keychain-access-groups" := VRef y]}) ->
  st_heap st !! x = Some (OArray [VStr "x"]) ->
  st_heap st !! y = Some (OArray [VStr "y"; VStr "z"]) ->
  exists (result : nat) (st' : state),
    IosUtils.mergeEntitlements (VRef profile) (VRef archive) st
    = (Ok (VRef result), st')
    /\ st_heap st' !! result
       = Some (OPlain {["keychain-access-groups" := VRef y]})
    /\ st_heap st' !! y = Some (OArray [VStr "y"; VStr "z"]).
Proof.
  intros HP HA Hx Hy.
  destruct (mergeWith_plain IosUtils.entitlementTransferRules
              IosUtils.blacklistedEntitlementKeys st (VRef profile) archive _ HA)
    as (working & R & Hrun & HR).
  cbn [spread_props] in HR. rewrite HP in HR. cbn [own_enumerable] in HR.
  exists (S (length (st_heap st))). eexists.
  split; [exact Hrun|]. cbn [st_heap].
  split; [|by apply lookup_app_old].
  rewrite lookup_result. do 2 f_equal. apply map_eq. intros k.
  rewrite HR. unfold merged_at.
  destruct (decide (k = "keychain-access-groups")) as [->|Hk].
  - rewrite decide_False
      by (apply not_in_list_by_computation; vm_compute; reflexivity).
    rewrite decide_True
      by (apply in_list_by_computation; vm_compute; reflexivity).
    by rewrite !lookup_singleton_eq.
  - rewrite !lookup_singleton_ne by done.
    destruct (decide (k ∈ _)) as [Hb|Hb]; [done|].
    assert (k ≠ "com.apple.developer.maps") as Hm.
    { intros ->. apply Hb. apply in_list_by_computation.
      vm_compute. reflexivity. }
    rewrite lookup_insert_ne by done.
    rewrite lookup_singleton_ne by done.
    by destruct (decide _).
Qed.

Lemma merge_keychain_example_witness :
  exists (result : nat) (st' : state),
    IosUtils.mergeEntitlements (VRef 0) (VRef 2) keychain_store
    = (Ok (VRef result), st')
    /\ st_heap st' !! result
       = Some (OPlain {["keychain-access-groups" := VRef 3]})
    /\ st_heap st' !! 3 = Some (OArray [VStr "y"; VStr "z"]).
Proof.
  apply (merge_keychain_example keychain_store 0 2 1 3); reflexivity.
Defined.

(** C4, as the specification states it, fails: with [undefined] for the
    profile entitlements (a provisioning profile without the key) and an
    empty archive dictionary, the merge raises nothing and returns an empty
    dictionary. *)
Lemma merge_accepts_undefined_profile :
  is_object VUndefined = false
  /\ IosUtils.mergeEntitlements VUndefined (VRef 0) (State [OPlain ∅] [])
     = (Ok (VRef 2), State [OPlain ∅; OPlain ∅; OPlain ∅] []).
Proof. split; vm_compute; reflexivity. Qed.

Lemma merge_primitive_archive (st : state) (profile archive : val) :
  is_object archive = false ->
  IosUtils.mergeEntitlements profile archive st
  = (Throw TypeError,
     State (st_heap st ++ [OPlain (spread_props (st_heap st) profile)])
           (st_trace st)).
Proof.
  intros Harchive.
  unfold IosUtils.mergeEntitlements, IosUtils.mergeWith,
    IosUtils.entitlementTransferRules.
  cbn [forEach]. unfold IosUtils.transferRule at 1.
  destruct archive; try discriminate; reflexivity.
Qed.

(** C4, amended.  The merge checks neither input.  An archive value that is
    not an object makes the first [in] test throw a [TypeError]: nothing is
    returned and no earlier object is changed.  A profile value that is not
    an object raises nothing: with an archive dictionary the merge returns a
    dictionary, built from the properties the spread finds in the profile
    value. *)
Theorem merge_non_object_inputs (st : state) (profile archive : val) :
  is_object profile = false \/ is_object archive = false ->
  (is_object archive = false ->
   exists st',
     IosUtils.mergeEntitlements profile archive st = (Throw TypeError, st')
     /\ (forall l o, st_heap st !! l = Some o -> st_heap st' !! l = Some o)
     /\ st_trace st' = st_trace st)
  /\ (forall (la : nat) (A : gmap string val),
        archive = VRef la ->
        st_heap st !! la = Some (OPlain A) ->
        exists (R : gmap string val) (st' : state),
          IosUtils.mergeEntitlements profile archive st
          = (Ok (VRef (S (length (st_heap st)))), st')
          /\ st_heap st' !! S (length (st_heap st)) = Some (OPlain R)
          /\ dom R
             = (dom (spread_props (st_heap st) profile)
                  ∪ (list_to_set IosUtils.entitlementTransferRules ∩ dom A))
                 ∖ list_to_set IosUtils.blacklistedEntitlementKeys).
Proof.
  intros Hinputs. split.
  - intros Harchive. eexists. split; [by apply merge_primitive_archive|].
    cbn [st_heap st_trace]. split; [|done].
    intros l o. apply lookup_app_old.
  - intros la A -> HA.
    destruct Hinputs as [Hprofile|Harchive]; [|discriminate].
    destruct (mergeWith_plain IosUtils.entitlementTransferRules
                IosUtils.blacklistedEntitlementKeys st profile la A HA)
      as (working & R & Hrun & HR).
    exists R. eexists. split; [exact Hrun|].
    split; [apply lookup_result|].
    rewrite (merged_at_dom _ _ _ _ _ HR). apply set_eq. intros k.
    rewrite !elem_of_difference, !elem_of_list_to_set, dropped_iff.
    split; [tauto|]. intros [Hk Hb]. split; [done|].
    intros [Hb'|Hg]; [done|].
    apply elem_of_union in Hk as [Hk|Hk].
    + apply (spread_props_primitive _ _ _ Hprofile) in Hk.
      apply guardedKeys_no_digit in Hg. congruence.
    + apply elem_of_intersection in Hk as [Hk _].
      apply elem_of_list_to_set in Hk.
      by apply transferRules_not_guarded in Hk.
Qed.

Lemma merge_non_object_inputs_witness :
  (is_object VNull = false ->
   exists st',
     IosUtils.mergeEntitlements VUndefined VNull audio_store
     = (Throw TypeError, st')
     /\ (forall l o,
           st_heap audio_store !! l = Some o -> st_heap st' !! l = Some o)
     /\ st_trace st' = st_trace audio_store)
  /\ (forall (la : nat) (A : gmap string val),
        VNull = VRef la ->
        st_heap audio_store !! la = Some (OPlain A) ->
        exists (R : gmap string val) (st' : state),
          IosUtils.mergeEntitlements VUndefined VNull audio_store
          = (Ok (VRef (S (length (st_heap audio_store)))), st')
          /\ st_heap st' !! S (length (st_heap audio_store)) = Some (OPlain R)
          /\ dom R
             = (dom (spread_props (st_heap audio_store) VUndefined)
                  ∪ (list_to_set IosUtils.entitlementTransferRules ∩ dom A))
                 ∖ list_to_set IosUtils.blacklistedEntitlementKeys).
Proof.
  apply (merge_non_object_inputs audio_store VUndefined VNull).
  left. reflexivity.
Defined.

(** ** The export method *)

Lemma read_property_plain (h : list object) (l : nat) (P : gmap string val)
    (k : string) :
  h !! l = Some (OPlain P) ->
  read_property h k (VRef l) = default VUndefined (P !! k).
Proof.
  intros Hl. unfold read_property, spread_props, length_of. rewrite Hl.
  cbn [own_enumerable]. by destruct (P !! k).
Qed.

(** C2, as the specification states it, fails on an empty list of
    provisioned devices: the code tests that the property is there (an
    array, even an empty one, is truthy) and answers [ad-hoc], where the
    stated policy falls through to [app-store]. *)
Lemma resolveExportMethod_empty_list :
  IosUtils.resolveExportMethod (VRef 0) no_devices_store
  = (Ok "ad-hoc", no_devices_store)
  /\ spec_resolveExportMethod (st_heap no_devices_store)
       {["ProvisionedDevices" := VRef 1]}
     = "app-store".
Proof. split; vm_compute; reflexivity. Qed.

(** C2, amended.  On a profile dictionary exactly one branch is taken, in
    this order: [ad-hoc] when the [ProvisionedDevices] property is truthy,
    which every list is, empty or not; otherwise [enterprise] when
    [ProvisionsAllDevices] is exactly [true]; otherwise [app-store], also
    when both properties are missing.  The store is left as it was. *)
Theorem resolveExportMethod_cases (st : state) (l : nat)
    (P : gmap string val) :
  st_heap st !! l = Some (OPlain P) ->
  let devices := default VUndefined (P !! "ProvisionedDevices") in
  let all_devices := default VUndefined (P !! "ProvisionsAllDevices") in
  exists method : string,
    IosUtils.resolveExportMethod (VRef l) st = (Ok method, st)
    /\ (method = "ad-hoc" <-> truthy devices = true)
    /\ (method = "enterprise"
        <-> truthy devices = false /\ all_devices = VBool true)
    /\ (method = "app-store"
        <-> truthy devices = false /\ all_devices <> VBool true)
    /\ (forall devs, devices = VRef devs -> method = "ad-hoc")
    /\ (P !! "ProvisionedDevices" = None ->
        P !! "ProvisionsAllDevices" = None -> method = "app-store").
Proof.
  intros HP devices all_devices.
  unfold IosUtils.resolveExportMethod, bind.
  rewrite get_property_ref, (read_property_plain _ _ _ _ HP).
  fold devices. destruct (truthy devices) eqn:Htruthy.
  - exists "ad-hoc". split; [done|].
    repeat split; try done; try (by intros [? ?]).
    intros Hnone _. subst devices. by rewrite Hnone in Htruthy.
  - assert (forall devs, devices <> VRef devs) as Hnoref.
    { intros devs Heq. by rewrite Heq in Htruthy. }
    rewrite get_property_ref, (read_property_plain _ _ _ _ HP).
    fold all_devices. destruct (is_true_strict all_devices) eqn:Hstrict.
    + assert (all_devices = VBool true) as Hall.
      { by destruct all_devices as [| |[]| | |]. }
      exists "enterprise". split; [done|].
      repeat split; try done; try (by intros [? ?]).
      * intros devs Heq. by destruct (Hnoref devs).
      * intros _ Hnone. subst all_devices. by rewrite Hnone in Hall.
    + assert (all_devices <> VBool true) as Hall.
      { intros Heq. by rewrite Heq in Hstrict. }
      exists "app-store". split; [done|].
      repeat split; try done; try (by intros [? ?]).
      intros devs Heq. by destruct (Hnoref devs).
Qed.

Lemma resolveExportMethod_cases_witness :
  exists method : string,
    IosUtils.resolveExportMethod (VRef 0) no_devices_store
    = (Ok method, no_devices_store)
    /\ (method = "ad-hoc" <-> truthy (VRef 1) = true)
    /\ (method = "enterprise"
        <-> truthy (VRef 1) = false /\ VUndefined = VBool true)
    /\ (method = "app-store"
        <-> truthy (VRef 1) = false /\ VUndefined <> VBool true)
    /\ (forall devs, VRef 1 = VRef devs -> method = "ad-hoc")
    /\ (({["ProvisionedDevices" := VRef 1]} : gmap string val)
          !! "ProvisionedDevices" = None ->
        ({["ProvisionedDevices" := VRef 1]} : gmap string val)
          !! "ProvisionsAllDevices" = None ->
        method = "app-store").
Proof.
  exact (resolveExportMethod_cases no_devices_store 0
           {["ProvisionedDevices" := VRef 1]} eq_refl).
Defined.

(** The three examples of the specification. *)
Example resolveExportMethod_examples :
  IosUtils.resolveExportMethod (VRef 0)
    (State [OPlain {["ProvisionedDevices" := VRef 1]}; OArray [VStr "a"]] [])
  = (Ok "ad-hoc",
     State [OPlain {["ProvisionedDevices" := VRef 1]}; OArray [VStr "a"]] [])
  /\ IosUtils.resolveExportMethod (VRef 0)
       (State [OPlain {["ProvisionsAllDevices" := VBool true]}] [])
     = (Ok "enterprise",
        State [OPlain {["ProvisionsAllDevices" := VBool true]}] [])
  /\ IosUtils.resolveExportMethod (VRef 0) (State [OPlain ∅] [])
     = (Ok "app-store", State [OPlain ∅] []).
Proof. repeat split; vm_compute; reflexivity. Qed.

(** ** Strings: search, case and hexadecimal digits *)

Lemma prefix_spec (p s : string) :
  String.prefix p s = true <-> exists rest, s = p +:+ rest.
Proof.
  revert s. induction p as [|a p IH]; intros s.
  - split; [intros _; by exists s|]. by destruct s.
  - destruct s as [|b s]; cbn [String.prefix].
    + split; [done|]. by intros [rest Hrest].
    + destruct (ascii_dec a b) as [->|Hab].
      * rewrite IH. split; intros [rest Hrest]; exists rest.
        -- by rewrite Hrest.
        -- by injection Hrest.
      * split; [done|]. intros [rest Hrest]. injection Hrest as Hba _.
        congruence.
Qed.

Lemma occurs_in_cons (t s : string) (c : ascii) :
  Str.occurs_in t s -> Str.occurs_in t (String c s).
Proof.
  intros (before & after & ->). by exists (String c before), after.
Qed.

(** [indexOf] finds an occurrence when there is one, and only then. *)
Lemma indexOf_from_spec (search s : string) (i : Z) :
  (0 <= i)%Z ->
  (Str.indexOf_from i s search = (-1)%Z /\ ~ Str.occurs_in search s)
  \/ ((i <= Str.indexOf_from i s search)%Z /\ Str.occurs_in search s).
Proof.
  revert i. induction s as [|c s IH]; intros i Hi; cbn [Str.indexOf_from].
  - destruct (String.prefix search "") eqn:Hp.
    + right. split; [lia|]. apply prefix_spec in Hp as [rest ->].
      by exists "", rest.
    + left. split; [done|]. intros (before & after & Heq).
      destruct before; [|done]. cbn in Heq.
      assert (String.prefix search "" = true) as Hp'
        by (apply prefix_spec; eauto).
      congruence.
  - destruct (String.prefix search (String c s)) eqn:Hp.
    + right. split; [lia|]. apply prefix_spec in Hp as [rest ->].
      by exists "", rest.
    + destruct (IH (i + 1)%Z ltac:(lia)) as [[Hidx Hno]|[Hidx Hyes]].
      * left. split; [done|]. intros (before & after & Heq).
        destruct before as [|b before]; cbn in Heq.
        -- assert (String.prefix search (String c s) = true) as Hp'
             by (apply prefix_spec; eauto).
           congruence.
        -- injection Heq as _ Heq. apply Hno. by exists before, after.
      * right. split; [lia|]. by apply occurs_in_cons.
Qed.

Lemma indexOf_found (s search : string) :
  Str.indexOf s search <> (-1)%Z <-> Str.occurs_in search s.
Proof.
  unfold Str.indexOf.
  destruct (indexOf_from_spec search s 0 ltac:(lia)) as [[-> Hno]|[Hidx Hyes]].
  - tauto.
  - split; [done|]. intros _. lia.
Qed.

Lemma occurs_in_empty (t : string) : Str.occurs_in t "" -> t = "".
Proof.
  intros (before & after & Heq). destruct before; [|done].
  by destruct t.
Qed.

Lemma toUpperCase_length (s : string) :
  String.length (Str.toUpperCase s) = String.length s.
Proof. induction s as [|c s IH]; cbn; congruence. Qed.

Lemma toHex_length (bytes : string) :
  String.length (ForgeUtil.toHex bytes) = 2 * String.length bytes.
Proof. induction bytes as [|c s IH]; cbn [ForgeUtil.toHex String.length]; lia. Qed.

(** The two digits of a byte, in upper case. *)
Lemma upper_hex_byte (c : ascii) :
  Str.is_upper_hex
    (Str.upper_char (ForgeUtil.hex_digit (Ascii.N_of_ascii c / 16))) = true
  /\ Str.is_upper_hex
       (Str.upper_char (ForgeUtil.hex_digit (Ascii.N_of_ascii c mod 16))) = true.
Proof.
  destruct c as [[] [] [] [] [] [] [] []]; split; vm_compute; reflexivity.
Qed.

Lemma toHex_upper (bytes : string) :
  Forall (fun c => Str.is_upper_hex c = true)
    (String.list_ascii_of_string (Str.toUpperCase (ForgeUtil.toHex bytes))).
Proof.
  induction bytes as [|c s IH]; [constructor|].
  cbn [ForgeUtil.toHex Str.toUpperCase String.list_ascii_of_string].
  destruct (upper_hex_byte c) as [Hhi Hlo].
  by repeat constructor.
Qed.

Lemma string_of_list_ascii_length (l : list ascii) :
  String.length (String.string_of_list_ascii l) = length l.
Proof. induction l as [|c l IH]; cbn; congruence. Qed.

Lemma be_bytes_length (n : nat) (x : Z) : length (Sha1.be_bytes n x) = n.
Proof. unfold Sha1.be_bytes. by rewrite length_fmap, length_seq. Qed.

(** A SHA-1 digest has twenty bytes. *)
Lemma digest_length (msg : string) : String.length (Sha1.digest msg) = 20.
Proof.
  unfold Sha1.digest, Sha1.digest_bytes.
  rewrite string_of_list_ascii_length, length_fmap.
  by rewrite !length_app, !be_bytes_length.
Qed.

Lemma fingerprint_of_digest (der : string) :
  is_fingerprint (Str.toUpperCase (ForgeUtil.toHex (Sha1.digest der))).
Proof.
  split; [|apply toHex_upper].
  by rewrite toUpperCase_length, toHex_length, digest_length.
Qed.

(** ** The fingerprint *)

(** The digest is computed on concrete inputs only. *)
#[local] Opaque Sha1.digest.

Section Fingerprint.
Context `{forge : Forge} `{env : Env}.

Lemma js_String_run (h : list object) (tr : list event) (v : val) :
  IosUtils.js_String (or_else v (VStr "")) (State h tr)
  = (Ok (password_text h v), State h tr).
Proof. unfold password_text. by destruct (or_else v (VStr "")). Qed.

(** The function reads the store and changes nothing. *)
Lemma genCertFingerprint_run (st : state) (p12Buffer passwordRaw : val) :
  IosUtils.genCertFingerprint p12Buffer passwordRaw st
  = (match p12_text (st_heap st) p12Buffer with
     | Some text => fingerprint_of text (password_text (st_heap st) passwordRaw)
     | None => Throw UnsupportedInputType
     end, st).
Proof.
  destruct st as [h tr].
  assert (forall text,
    (password <- IosUtils.js_String (or_else passwordRaw (VStr "")) ;;
     let p12Der := util_decode64 text in
     p12Asn1 <- lift_result (asn1_fromDer p12Der) ;;
     p12 <- lift_result (pkcs12_pkcs12FromAsn1 p12Asn1 password) ;;
     match head (getBags_certBag p12) with
     | Some (Some certData) =>
         certAsn1 <- lift_result (pki_certificateToAsn1 certData) ;;
         certDer <- lift_result (asn1_toDer certAsn1) ;;
         ret (Str.toUpperCase (ForgeUtil.toHex (Sha1.digest certDer)))
     | _ => throw (Error "genCertFingerprint: couldn't find cert bag")
     end) (State h tr)
    = (fingerprint_of text (password_text h passwordRaw), State h tr))
    as Hrest.
  { intros text. unfold bind at 1. rewrite js_String_run.
    unfold fingerprint_of, bind, lift_result.
    destruct (asn1_fromDer _) as [a|e]; [|reflexivity].
    destruct (pkcs12_pkcs12FromAsn1 _ _) as [p12|e]; [|reflexivity].
    destruct (head _) as [[cert|]|]; [|reflexivity..].
    destruct (pki_certificateToAsn1 _) as [ca|e]; [|reflexivity].
    destruct (asn1_toDer _) as [der|e]; reflexivity. }
  unfold IosUtils.genCertFingerprint, p12_text. cbn [st_heap].
  unfold bind at 1. unfold get_heap at 1. cbn [st_heap].
  destruct p12Buffer as [| | | |s|l]; [reflexivity..| |].
  - unfold bind at 1. unfold ret at 1. apply Hrest.
  - destruct (h !! l) as [[| |bytes]|]; [reflexivity..| |reflexivity].
    unfold bind at 1. unfold ret at 1. apply Hrest.
Qed.

Lemma fingerprint_of_ok (text password fp : string) :
  fingerprint_of text password = Ok fp -> is_fingerprint fp.
Proof.
  unfold fingerprint_of.
  destruct (asn1_fromDer _) as [a|e]; [|discriminate].
  destruct (pkcs12_pkcs12FromAsn1 _ _) as [p12|e]; [|discriminate].
  destruct (head _) as [[cert|]|]; [|discriminate..].
  destruct (pki_certificateToAsn1 _) as [ca|e]; [|discriminate].
  destruct (asn1_toDer _) as [der|e]; [|discriminate].
  intros [= <-]. apply fingerprint_of_digest.
Qed.

(** Whatever the function returns is the text of a fingerprint. *)
Lemma genCertFingerprint_ok (st st' : state) (p12Buffer passwordRaw : val)
    (fp : string) :
  IosUtils.genCertFingerprint p12Buffer passwordRaw st = (Ok fp, st') ->
  st' = st /\ is_fingerprint fp.
Proof.
  rewrite genCertFingerprint_run. intros [= Hfp <-]. split; [reflexivity|].
  destruct (p12_text _ _); [|discriminate]. eapply fingerprint_of_ok, Hfp.
Qed.

End Fingerprint.

(** ** Requests to the outside world *)

Section Requests.
Context `{env : Env}.

Lemma readFile_run (st : state) (path : string) (bytes : list Byte.byte) :
  fs_readFile (st_trace st) path = Ok bytes ->
  IosUtils.readFile path st
  = (Ok (VRef (length (st_heap st))),
     State (st_heap st ++ [OBuffer bytes]) (st_trace st ++ [EReadFile path])).
Proof.
  intros Hread. unfold IosUtils.readFile, bind, get_trace, emit, lift_result.
  cbn [st_heap st_trace]. rewrite Hread. reflexivity.
Qed.

Lemma spawn_run (st : state) (cmd : string) (args output : list string) :
  spawnAsyncThrowError (st_trace st) cmd args = Ok output ->
  IosUtils.spawn cmd args st
  = (Ok output, State (st_heap st) (st_trace st ++ [ESpawn cmd args])).
Proof.
  intros Hspawn. unfold IosUtils.spawn, bind, get_trace, emit, lift_result.
  cbn [st_heap st_trace]. rewrite Hspawn. reflexivity.
Qed.

Lemma globAsync_run (st : state) (pattern : string) (paths : list string) :
  glob (st_trace st) pattern = Ok paths ->
  IosUtils.globAsync pattern st
  = (Ok paths, State (st_heap st) (st_trace st ++ [EGlob pattern])).
Proof.
  intros Hglob. unfold IosUtils.globAsync, bind, get_trace, emit, lift_result.
  cbn [st_heap st_trace]. rewrite Hglob. reflexivity.
Qed.

End Requests.

Lemma append_empty_r (s : string) : s +:+ "" = s.
Proof.
  induction s as [|c s IH]; [reflexivity|].
  change (String c (s +:+ "") = String c s). by rewrite IH.
Qed.

Lemma append_assoc (a b c : string) : (a +:+ b) +:+ c = a +:+ b +:+ c.
Proof.
  induction a as [|x a IH]; [reflexivity|].
  change (String x ((a +:+ b) +:+ c) = String x (a +:+ b +:+ c)).
  by rewrite IH.
Qed.

Lemma occurs_in_message (fingerprint identities : string) :
  Str.occurs_in fingerprint
    ("codesign ident not present in find-identity: "
       +:+ fingerprint +:+ Str.nl +:+ identities)
  /\ Str.occurs_in identities
       ("codesign ident not present in find-identity: "
          +:+ fingerprint +:+ Str.nl +:+ identities).
Proof.
  split.
  - by exists "codesign ident not present in find-identity: ",
              (Str.nl +:+ identities).
  - exists ("codesign ident not present in find-identity: "
              +:+ fingerprint +:+ Str.nl), "".
    by rewrite append_empty_r, !append_assoc.
Qed.

Section Validation.
Context `{forge : Forge} `{env : Env}.

(** C3. Once the certificate file is read, its fingerprint computed and the
    identities of the team listed, [ensureCertificateValid] returns the
    fingerprint exactly when it occurs in the listing.  When it does not,
    and so when the listing is empty, the function throws the error of line
    16, whose message contains the fingerprint and the whole listing. *)
Theorem ensureCertificateValid_spec (st : state) (certPath : string)
    (certPassword : val) (teamID : string) (bytes : list Byte.byte)
    (fingerprint : string) (output : list string) :
  let st1 := State (st_heap st ++ [OBuffer bytes])
                   (st_trace st ++ [EReadFile certPath]) in
  let st2 := State (st_heap st1) (st_trace st1 ++ [find_identity teamID]) in
  let identities := Str.join output in
  let outcome :=
    IosUtils.ensureCertificateValid certPath certPassword teamID st in
  fs_readFile (st_trace st) certPath = Ok bytes ->
  IosUtils.genCertFingerprint (VRef (length (st_heap st))) certPassword st1
  = (Ok fingerprint, st1) ->
  spawnAsyncThrowError (st_trace st1) "security"
    ["find-identity"; "-v"; "-s"; "(" +:+ teamID +:+ ")"] = Ok output ->
  (outcome = (Ok fingerprint, st2) <-> Str.occurs_in fingerprint identities)
  /\ (~ Str.occurs_in fingerprint identities ->
      outcome = (Throw (CertificateNotTrusted fingerprint identities), st2))
  /\ (identities = "" ->
      outcome = (Throw (CertificateNotTrusted fingerprint ""), st2))
  /\ Str.occurs_in fingerprint
       (error_message (CertificateNotTrusted fingerprint identities))
  /\ Str.occurs_in identities
       (error_message (CertificateNotTrusted fingerprint identities)).
Proof.
  intros st1 st2 identities outcome Hread Hfp Hspawn.
  assert (outcome
          = if (Str.indexOf identities fingerprint =? -1)%Z
            then (Throw (CertificateNotTrusted fingerprint identities), st2)
            else (Ok fingerprint, st2)) as Hrun.
  { subst outcome. unfold IosUtils.ensureCertificateValid.
    unfold bind at 1. rewrite (readFile_run _ _ _ Hread). fold st1.
    unfold bind at 1. rewrite Hfp.
    unfold bind at 1. unfold IosUtils.findIdentitiesByTeamID.
    unfold bind at 1. rewrite (spawn_run _ _ _ _ Hspawn).
    fold (find_identity teamID). fold st2. unfold ret at 1.
    fold identities. rewrite negb_involutive.
    destruct (Str.indexOf identities fingerprint =? -1)%Z; reflexivity. }
  pose proof (indexOf_found identities fingerprint) as Hfound.
  assert (~ Str.occurs_in fingerprint identities ->
          outcome = (Throw (CertificateNotTrusted fingerprint identities), st2))
    as Hfail.
  { intros Hno. rewrite Hrun.
    destruct (Z.eqb_spec (Str.indexOf identities fingerprint) (-1)) as [_|Hne];
      [reflexivity|tauto]. }
  split; [|split; [exact Hfail|split]].
  - rewrite Hrun.
    destruct (Z.eqb_spec (Str.indexOf identities fingerprint) (-1)) as [Heq|Hne].
    + split; [discriminate|]. intros Hocc. apply Hfound in Hocc. lia.
    + split; [intros _; by apply Hfound|reflexivity].
  - intros Hempty. rewrite <- Hempty. apply Hfail. rewrite Hempty.
    intros Hocc. apply occurs_in_empty in Hocc.
    apply genCertFingerprint_ok in Hfp as [_ [Hlen _]].
    rewrite Hocc in Hlen. discriminate.
  - apply occurs_in_message.
Qed.

End Validation.

Section FingerprintClaims.
Context `{forge : Forge} `{env : Env}.

(** C6. An input that is neither a string nor a buffer is refused with the
    error of line 25.  An error thrown by the DER or PKCS#12 decoding (a
    malformed container, a wrong password) comes out as it is.  A container
    that decodes and has no certificate bag gives the error of line 35.  In
    each case the store and the trace are as before. *)
Theorem genCertFingerprint_failures (st : state) (p12Buffer passwordRaw : val) :
  (is_string p12Buffer = false ->
   is_buffer (st_heap st) p12Buffer = false ->
   IosUtils.genCertFingerprint p12Buffer passwordRaw st
   = (Throw UnsupportedInputType, st))
  /\ (forall text e,
        p12_text (st_heap st) p12Buffer = Some text ->
        asn1_fromDer (util_decode64 text) = Throw e ->
        IosUtils.genCertFingerprint p12Buffer passwordRaw st = (Throw e, st))
  /\ (forall text p12Asn1 e,
        p12_text (st_heap st) p12Buffer = Some text ->
        asn1_fromDer (util_decode64 text) = Ok p12Asn1 ->
        pkcs12_pkcs12FromAsn1 p12Asn1 (password_text (st_heap st) passwordRaw)
        = Throw e ->
        IosUtils.genCertFingerprint p12Buffer passwordRaw st = (Throw e, st))
  /\ (forall text p12Asn1 p12,
        p12_text (st_heap st) p12Buffer = Some text ->
        asn1_fromDer (util_decode64 text) = Ok p12Asn1 ->
        pkcs12_pkcs12FromAsn1 p12Asn1 (password_text (st_heap st) passwordRaw)
        = Ok p12 ->
        getBags_certBag p12 = [] ->
        IosUtils.genCertFingerprint p12Buffer passwordRaw st
        = (Throw MissingCertificateBag, st)).
Proof.
  rewrite genCertFingerprint_run. repeat split.
  - intros Hstring Hbuffer.
    destruct p12Buffer as [| | | |s|l]; try reflexivity; [discriminate|].
    unfold is_buffer in Hbuffer. unfold p12_text.
    destruct (st_heap st !! l) as [[| |bytes]|];
      try reflexivity; discriminate.
  - intros text e -> Hder. unfold fingerprint_of. by rewrite Hder.
  - intros text p12Asn1 e -> Hder Hp12. unfold fingerprint_of.
    by rewrite Hder, Hp12.
  - intros text p12Asn1 p12 -> Hder Hp12 Hbags. unfold fingerprint_of.
    by rewrite Hder, Hp12, Hbags.
Qed.

(** C7. A buffer and the string of its base64 encoding give the same
    outcome, for every password. *)
Theorem genCertFingerprint_base64 (st : state) (l : nat)
    (bytes : list Byte.byte) (passwordRaw : val) :
  st_heap st !! l = Some (OBuffer bytes) ->
  IosUtils.genCertFingerprint (VRef l) passwordRaw st
  = IosUtils.genCertFingerprint (VStr (Node.toString_base64 bytes))
      passwordRaw st.
Proof.
  intros Hbuf. rewrite !genCertFingerprint_run.
  unfold p12_text. by rewrite Hbuf.
Qed.

(** C9, as the specification has it, fails: a container that is valid and
    holds a single certificate bag gives its fingerprint with the password
    that opens it, and with another password the call throws the decoder's
    error and returns no text at all. *)
Lemma genCertFingerprint_wrong_password :
  @asn1_fromDer Sample.forge
    (@util_decode64 Sample.forge (Node.toString_base64 Sample.certBytes))
  = Ok "MIIB"
  /\ @pkcs12_pkcs12FromAsn1 Sample.forge "MIIB" "secret" = Ok [Some "MIIB"]
  /\ @IosUtils.genCertFingerprint Sample.forge Sample.env (VRef 0)
       (VStr "secret") (State [OBuffer Sample.certBytes] [])
     = (Ok "315D57AFA957747D8E203ED142D4FB85618FF4D9",
        State [OBuffer Sample.certBytes] [])
  /\ @IosUtils.genCertFingerprint Sample.forge Sample.env (VRef 0)
       (VStr "guess") (State [OBuffer Sample.certBytes] [])
     = (Throw (Error "PKCS#12 MAC could not be verified. Invalid password?"),
        State [OBuffer Sample.certBytes] []).
Proof. vm_compute. auto. Qed.

(** C9, amended.  Take two calls on the same container text (a string, or a
    buffer of the same bytes at whatever place of the store) and on a
    password value that reads as the same text in both stores, the container
    being one that the DER decoder accepts.  Then:
    - both calls have the same outcome, a text or an error, and leave the
      store and the trace as they were;
    - when the PKCS#12 decoder refuses the password, the outcome is that
      error, not a fingerprint;
    - when the password opens the container, the container holds a single
      certificate bag and the certificate re-encodes to [certDer], both
      calls return the forty upper-case hexadecimal digits of the SHA-1
      digest of [certDer];
    - a call that returns a text returns forty upper-case hexadecimal
      digits, and the password has opened the container;
    - the digest is SHA-1: on the three test messages of the standard it
      has the published values. *)
Theorem genCertFingerprint_deterministic (st1 st2 : state)
    (p12Buffer1 p12Buffer2 passwordRaw : val) (text : string)
    (p12Asn1 : asn1) :
  let password := password_text (st_heap st1) passwordRaw in
  let first := IosUtils.genCertFingerprint p12Buffer1 passwordRaw st1 in
  let second := IosUtils.genCertFingerprint p12Buffer2 passwordRaw st2 in
  p12_text (st_heap st1) p12Buffer1 = Some text ->
  p12_text (st_heap st2) p12Buffer2 = Some text ->
  password_text (st_heap st2) passwordRaw = password ->
  asn1_fromDer (util_decode64 text) = Ok p12Asn1 ->
  (first.1 = second.1 /\ first.2 = st1 /\ second.2 = st2)
  /\ (forall e,
        pkcs12_pkcs12FromAsn1 p12Asn1 password = Throw e ->
        first = (Throw e, st1) /\ second = (Throw e, st2))
  /\ (forall p12 certData certAsn1 certDer,
        pkcs12_pkcs12FromAsn1 p12Asn1 password = Ok p12 ->
        getBags_certBag p12 = [Some certData] ->
        pki_certificateToAsn1 certData = Ok certAsn1 ->
        asn1_toDer certAsn1 = Ok certDer ->
        exists fp : string,
          first = (Ok fp, st1)
          /\ second = (Ok fp, st2)
          /\ fp = Str.toUpperCase (ForgeUtil.toHex (Sha1.digest certDer))
          /\ String.length fp = 40
          /\ Forall (fun c => Str.is_upper_hex c = true)
               (String.list_ascii_of_string fp))
  /\ (forall fp,
        first.1 = Ok fp ->
        String.length fp = 40
        /\ Forall (fun c => Str.is_upper_hex c = true)
             (String.list_ascii_of_string fp)
        /\ exists p12, pkcs12_pkcs12FromAsn1 p12Asn1 password = Ok p12)
  /\ (Str.toUpperCase (ForgeUtil.toHex (Sha1.digest ""))
      = "DA39A3EE5E6B4B0D3255BFEF95601890AFD80709"
      /\ Str.toUpperCase (ForgeUtil.toHex (Sha1.digest "abc"))
        = "A9993E364706816ABA3E25717850C26C9CD0D89D"
      /\ Str.toUpperCase
           (ForgeUtil.toHex
              (Sha1.digest
                 "abcdbcdecdefdefgefghfghighijhijkijkljklmklmnlmnomnopnopq"))
        = "84983E441C3BD26EBAAE4AA1F95129E5E54670F1").
Proof.
  intros password first second Ht1 Ht2 Hpw Hder.
  assert (first = (fingerprint_of text password, st1)) as Hfirst.
  { unfold first. rewrite genCertFingerprint_run, Ht1. reflexivity. }
  assert (second = (fingerprint_of text password, st2)) as Hsecond.
  { unfold second. rewrite genCertFingerprint_run, Ht2, Hpw. reflexivity. }
  rewrite Hfirst, Hsecond. cbn [fst snd].
  split; [by repeat split|]. split; [|split; [|split]].
  - intros e Hp12. unfold fingerprint_of. rewrite Hder, Hp12. by split.
  - intros p12 certData certAsn1 certDer Hp12 Hbags Hcert Hto.
    exists (Str.toUpperCase (ForgeUtil.toHex (Sha1.digest certDer))).
    unfold fingerprint_of. rewrite Hder, Hp12, Hbags. cbn [head].
    rewrite Hcert, Hto.
    destruct (fingerprint_of_digest certDer) as [Hlen Hhex].
    by repeat split.
  - intros fp Hfp.
    destruct (fingerprint_of_ok _ _ _ Hfp) as [Hlen Hhex].
    split; [exact Hlen|]. split; [exact Hhex|].
    unfold fingerprint_of in Hfp. rewrite Hder in Hfp.
    destruct (pkcs12_pkcs12FromAsn1 p12Asn1 password) as [p12|e];
      [by exists p12|discriminate].
  - vm_compute. auto.
Qed.

End FingerprintClaims.

(** ** Discovery of the archive's entitlements file *)

Section Discovery.
Context `{env : Env}.

(** C8. The function looks for the files that match the pattern under the
    archive.  With no match it throws the error of line 198, with more than
    one the error of line 200, in both cases right after the search: no file
    is read or written.  With exactly one match, and only then, it goes on
    to read that file, parse it and merge. *)
Theorem createEntitlementsFile_discovery (st : state)
    (generatedEntitlementsPath : string) (plistData profile : val)
    (archivePath : string) (paths : list string) :
  let st1 := State (st_heap st)
                   (st_trace st ++ [EGlob (entitlementsPattern archivePath)]) in
  let outcome :=
    IosUtils.createEntitlementsFile generatedEntitlementsPath plistData
      archivePath st in
  get_property "Entitlements" plistData st = (Ok profile, st) ->
  glob (st_trace st) (entitlementsPattern archivePath) = Ok paths ->
  (paths = [] -> outcome = (Throw ArchiveEntitlementsNotFound, st1))
  /\ (1 < length paths -> outcome = (Throw ArchiveEntitlementsAmbiguous, st1))
  /\ (forall archiveEntitlementsPath,
        paths = [archiveEntitlementsPath] ->
        outcome
        = IosUtils.generateEntitlements generatedEntitlementsPath profile
            archiveEntitlementsPath st1)
  /\ (forall st', outcome = (Ok tt, st') -> length paths = 1).
Proof.
  intros st1 outcome Hprofile Hglob.
  assert (outcome
          = match paths with
            | [] => (Throw ArchiveEntitlementsNotFound, st1)
            | [archiveEntitlementsPath] =>
                IosUtils.generateEntitlements generatedEntitlementsPath
                  profile archiveEntitlementsPath st1
            | _ => (Throw ArchiveEntitlementsAmbiguous, st1)
            end) as Hrun.
  { subst outcome. unfold IosUtils.createEntitlementsFile.
    unfold bind at 1. rewrite Hprofile.
    unfold bind at 1. fold (entitlementsPattern archivePath).
    rewrite (globAsync_run _ _ _ Hglob). fold st1.
    destruct paths as [|p [|q paths]]; reflexivity. }
  rewrite Hrun. repeat split.
  - by intros ->.
  - intros Hlen. destruct paths as [|p [|q paths]]; cbn in Hlen; [lia..|].
    reflexivity.
  - by intros p ->.
  - intros st'. destruct paths as [|p [|q paths]]; [discriminate|done|].
    discriminate.
Qed.

(** The way through lines 202-233 when every collaborator answers: the
    file is read and parsed, the merge runs, its result is built and
    written, whatever the builder returned, then reformatted by PlistBuddy
    and written again. *)
Lemma generateEntitlements_run (st : state)
    (generatedEntitlementsPath archiveEntitlementsPath : string)
    (profile : val) (bytes : list Byte.byte) (archive : nat)
    (parsed : list object) (output : list string) :
  let h1 := st_heap st ++ [OBuffer bytes] in
  let text := ToString h1 (VRef (length (st_heap st))) in
  let h2 := h1 ++ parsed in
  let h3 := mergedStore h2 profile archive in
  let built := plist_build h3 (VRef (S (length h2))) in
  let read := EReadFile archiveEntitlementsPath in
  let first := EWriteFile generatedEntitlementsPath built IosUtils.mode_755 in
  let print := ESpawn "/usr/libexec/PlistBuddy"
                 ["-x"; "-c"; "Print"; generatedEntitlementsPath] in
  let second := EWriteFile generatedEntitlementsPath (Ok (Str.join output))
                  IosUtils.mode_755 in
  fs_readFile (st_trace st) archiveEntitlementsPath = Ok bytes ->
  plist_parse text h1 = inr (VRef archive, parsed) ->
  is_Some (h2 !! archive) ->
  fs_writeFile (st_trace st ++ [read]) generatedEntitlementsPath built
    IosUtils.mode_755 = Ok tt ->
  spawnAsyncThrowError (st_trace st ++ [read; first])
    "/usr/libexec/PlistBuddy"
    ["-x"; "-c"; "Print"; generatedEntitlementsPath] = Ok output ->
  fs_writeFile (st_trace st ++ [read; first; print])
    generatedEntitlementsPath (Ok (Str.join output)) IosUtils.mode_755
  = Ok tt ->
  IosUtils.generateEntitlements generatedEntitlementsPath profile
    archiveEntitlementsPath st
  = (Ok tt, State h3 (st_trace st ++ [read; first; print; second])).
Proof.
  intros h1 text h2 h3 built read first print second Hread Hparse Harchive
    Hwrite1 Hspawn Hwrite2.
  unfold IosUtils.generateEntitlements.
  unfold bind at 1. rewrite (readFile_run _ _ _ Hread). fold h1 read.
  unfold bind at 1. unfold IosUtils.js_String, bind at 1, get_heap, ret.
  cbn [st_heap]. fold text.
  unfold bind at 1. unfold IosUtils.parsePlist. cbn [st_heap st_trace].
  rewrite Hparse. fold h2.
  unfold bind at 1. rewrite (mergeEntitlements_run _ _ _ _ Harchive).
  fold h3.
  unfold bind at 1. cbn [st_heap]. fold built.
  unfold bind at 1. unfold IosUtils.writeFile.
  unfold bind at 1, get_trace at 1. cbn [st_trace].
  unfold bind at 1, emit at 1. cbn [st_heap st_trace].
  unfold lift_result at 1. rewrite Hwrite1.
  rewrite <- app_assoc. cbn [app].
  unfold bind at 1. rewrite (spawn_run (State _ _) _ _ _ Hspawn).
  cbn [st_heap st_trace]. rewrite <- app_assoc. cbn [app].
  unfold bind at 1, get_trace at 1. cbn [st_trace].
  unfold bind at 1, emit at 1. cbn [st_heap st_trace].
  unfold lift_result at 1. fold print. rewrite Hwrite2.
  rewrite <- app_assoc. reflexivity.
Qed.

End Discovery.

Lemma ensureCertificateValid_spec_witness :
  @IosUtils.ensureCertificateValid Sample.forge Sample.env
    "dist.p12" (VStr "secret") "TEAM123456" Sample.start
  = (Ok Sample.fingerprint,
     State [OBuffer Sample.certBytes]
           [EReadFile "dist.p12"; find_identity "TEAM123456"]).
Proof.
  destruct (@ensureCertificateValid_spec Sample.forge Sample.env Sample.start
              "dist.p12" (VStr "secret") "TEAM123456" Sample.certBytes
              Sample.fingerprint Sample.identities)
    as [Hiff _]; [vm_compute; reflexivity..|].
  apply Hiff.
  exists "  1) ",
    (" iPhone Distribution: Example (TEAM123456)" +:+ Str.nl
       +:+ "     1 valid identities found" +:+ Str.nl).
  vm_compute. reflexivity.
Defined.

Lemma genCertFingerprint_failures_witness :
  @IosUtils.genCertFingerprint Sample.forge Sample.env (VNum 5) VUndefined
    Sample.start
  = (Throw UnsupportedInputType, Sample.start)
  /\ @IosUtils.genCertFingerprint Sample.forge Sample.env (VStr "") VUndefined
       Sample.start
     = (Throw (Error "Too few bytes to parse DER."), Sample.start)
  /\ @IosUtils.genCertFingerprint Sample.forge Sample.env (VStr "MIIB")
       (VStr "guess") Sample.start
     = (Throw (Error "PKCS#12 MAC could not be verified. Invalid password?"),
        Sample.start)
  /\ @IosUtils.genCertFingerprint Sample.forge Sample.env (VStr "AAAA")
       (VStr "secret") Sample.start
     = (Throw MissingCertificateBag, Sample.start).
Proof.
  split; [|split; [|split]].
  - destruct (@genCertFingerprint_failures Sample.forge Sample.env
                Sample.start (VNum 5) VUndefined) as (Htype & _).
    apply Htype; reflexivity.
  - destruct (@genCertFingerprint_failures Sample.forge Sample.env
                Sample.start (VStr "") VUndefined) as (_ & Hder & _).
    apply (Hder ""); reflexivity.
  - destruct (@genCertFingerprint_failures Sample.forge Sample.env
                Sample.start (VStr "MIIB") (VStr "guess")) as (_ & _ & Hp12 & _).
    apply (Hp12 "MIIB" "MIIB"); reflexivity.
  - destruct (@genCertFingerprint_failures Sample.forge Sample.env
                Sample.start (VStr "AAAA") (VStr "secret")) as (_ & _ & _ & Hbag).
    apply (Hbag "AAAA" "AAAA" []); reflexivity.
Defined.

Lemma genCertFingerprint_base64_witness :
  @IosUtils.genCertFingerprint Sample.forge Sample.env (VRef 0) (VStr "secret")
    (State [OBuffer Sample.certBytes] [])
  = @IosUtils.genCertFingerprint Sample.forge Sample.env (VStr "MIIB")
      (VStr "secret") (State [OBuffer Sample.certBytes] []).
Proof.
  apply (@genCertFingerprint_base64 Sample.forge Sample.env
           (State [OBuffer Sample.certBytes] []) 0 Sample.certBytes).
  reflexivity.
Defined.

Lemma genCertFingerprint_deterministic_witness :
  @IosUtils.genCertFingerprint Sample.forge Sample.env (VRef 0)
    (VStr "secret") (State [OBuffer Sample.certBytes] [])
  = (Ok "315D57AFA957747D8E203ED142D4FB85618FF4D9",
     State [OBuffer Sample.certBytes] [])
  /\ @IosUtils.genCertFingerprint Sample.forge Sample.env (VRef 1)
       (VStr "secret")
       (State [OPlain ∅; OBuffer Sample.certBytes] [EReadFile "dist.p12"])
     = (Ok "315D57AFA957747D8E203ED142D4FB85618FF4D9",
        State [OPlain ∅; OBuffer Sample.certBytes] [EReadFile "dist.p12"])
  /\ @IosUtils.genCertFingerprint Sample.forge Sample.env (VRef 0)
       (VStr "guess") (State [OBuffer Sample.certBytes] [])
     = (Throw (Error "PKCS#12 MAC could not be verified. Invalid password?"),
        State [OBuffer Sample.certBytes] [])
  /\ @IosUtils.genCertFingerprint Sample.forge Sample.env (VStr "MIIB")
       (VStr "guess") Sample.start
     = (Throw (Error "PKCS#12 MAC could not be verified. Invalid password?"),
        Sample.start).
Proof.
  destruct (@genCertFingerprint_deterministic Sample.forge Sample.env
              (State [OBuffer Sample.certBytes] [])
              (State [OPlain ∅; OBuffer Sample.certBytes]
                 [EReadFile "dist.p12"])
              (VRef 0) (VRef 1) (VStr "secret") "MIIB" "MIIB"
              eq_refl eq_refl eq_refl eq_refl)
    as (_ & _ & Hopen & _).
  destruct (Hopen [Some "MIIB"] "MIIB" "MIIB" "MIIB"
              eq_refl eq_refl eq_refl eq_refl)
    as (fp & Hfirst & Hsecond & Hfp & _).
  destruct (@genCertFingerprint_deterministic Sample.forge Sample.env
              (State [OBuffer Sample.certBytes] []) Sample.start
              (VRef 0) (VStr "MIIB") (VStr "guess") "MIIB" "MIIB"
              eq_refl eq_refl eq_refl eq_refl)
    as (_ & Hrefused & _).
  destruct (Hrefused
              (Error "PKCS#12 MAC could not be verified. Invalid password?")
              eq_refl)
    as [Hguess1 Hguess2].
  assert (fp = "315D57AFA957747D8E203ED142D4FB85618FF4D9") as Hlit.
  { rewrite Hfp. vm_compute. reflexivity. }
  rewrite Hlit in Hfirst, Hsecond.
  exact (conj Hfirst (conj Hsecond (conj Hguess1 Hguess2))).
Defined.

Lemma createEntitlementsFile_discovery_witness :
  @IosUtils.createEntitlementsFile Sample.env "out.entitlements" (VRef 0)
    "Empty.xcarchive" Sample.profile
  = (Throw ArchiveEntitlementsNotFound,
     State [OPlain ∅]
       [EGlob "Empty.xcarchive/Products/Applications/ExpoKitApp.app/*.entitlements"])
  /\ @IosUtils.createEntitlementsFile Sample.env "out.entitlements" (VRef 0)
       "Two.xcarchive" Sample.profile
     = (Throw ArchiveEntitlementsAmbiguous,
        State [OPlain ∅]
          [EGlob "Two.xcarchive/Products/Applications/ExpoKitApp.app/*.entitlements"]).
Proof.
  split.
  - apply (@createEntitlementsFile_discovery Sample.env Sample.profile
             "out.entitlements" (VRef 0) VUndefined "Empty.xcarchive" []);
      reflexivity.
  - apply (@createEntitlementsFile_discovery Sample.env Sample.profile
             "out.entitlements" (VRef 0) VUndefined "Two.xcarchive"
             ["Two.xcarchive/a.entitlements"; "Two.xcarchive/b.entitlements"]);
      [reflexivity|reflexivity|cbn; lia].
Defined.

(** With one entitlements file in the archive the whole function runs: the
    search, the read, the two writes around the reformatting. *)
Example createEntitlementsFile_sample :
  @IosUtils.createEntitlementsFile Sample.env "out.entitlements" (VRef 0)
    "App.xcarchive" Sample.profile
  = (Ok tt,
     State [OPlain ∅; OBuffer [];
            OPlain {["keychain-access-groups" := VStr "TEAM123456.*"]};
            OPlain {["keychain-access-groups" := VStr "TEAM123456.*"]};
            OPlain {["keychain-access-groups" := VStr "TEAM123456.*"]}]
       [EGlob "App.xcarchive/Products/Applications/ExpoKitApp.app/*.entitlements";
        EReadFile Sample.archiveFile;
        EWriteFile "out.entitlements" (Ok "<plist/>") 493;
        ESpawn "/usr/libexec/PlistBuddy"
          ["-x"; "-c"; "Print"; "out.entitlements"];
        EWriteFile "out.entitlements" (Ok "") 493]).
Proof. vm_compute. reflexivity. Qed.

(** * The rest of the module *)

(** ** Processes started with an environment *)

Section Processes.
Context `{env : Env} `{host : Host}.

Lemma spawnEnv_run (st : state) (cmd : string) (args : list string)
    (childEnv : gmap string val) :
  IosUtils.spawnEnv cmd args childEnv st
  = (match spawnWithEnv (st_trace st) cmd args childEnv with
     | Ok _ => Ok tt
     | Throw e => Throw e
     end,
     State (st_heap st) (st_trace st ++ [ESpawn cmd args])).
Proof.
  unfold IosUtils.spawnEnv, bind, get_trace, emit, lift_result, ret.
  cbn [st_heap st_trace].
  destruct (spawnWithEnv _ _ _ _); reflexivity.
Qed.

Lemma spawn_throw (st : state) (cmd : string) (args : list string)
    (e : js_error) :
  spawnAsyncThrowError (st_trace st) cmd args = Throw e ->
  IosUtils.spawn cmd args st
  = (Throw e, State (st_heap st) (st_trace st ++ [ESpawn cmd args])).
Proof.
  intros Hspawn. unfold IosUtils.spawn, bind, get_trace, emit, lift_result.
  cbn [st_heap st_trace]. rewrite Hspawn. reflexivity.
Qed.

(** X1. With a truthy [client], [buildIPA] throws a [TypeError] while it
    evaluates the arguments of the call ([path.Dir] is not a function):
    xcodebuild is never started and the store is left as it was. *)
Theorem buildIPA_client_throws (st : state) (ipaPath workspace archivePath
    codeSignIdentity exportOptionsPlistPath keychainPath exportMethod : string)
    (teamID password client : val) :
  truthy client = true ->
  IosUtils.buildIPA ipaPath workspace archivePath codeSignIdentity
    exportOptionsPlistPath keychainPath exportMethod teamID password client st
  = (Throw TypeError, st).
Proof.
  intros Hclient. unfold IosUtils.buildIPA.
  destruct client; try discriminate; cbn [truthy] in *;
    rewrite ?Hclient; reflexivity.
Qed.

Lemma fastlaneEnv_lookup (teamID password : val) :
  let childEnv :=
    IosUtils.spread2 IosUtils.processEnv
      (IosUtils.fastlaneEnvVars teamID password) in
  childEnv !! "FASTLANE_TEAM_ID" = Some teamID
  /\ childEnv !! "FASTLANE_PASSWORD" = Some password
  /\ childEnv !! "FASTLANE_SKIP_UPDATE_CHECK" = Some (VNum 1)
  /\ childEnv !! "FASTLANE_DISABLE_COLORS" = Some (VNum 1)
  /\ childEnv !! "CI" = Some (VNum 1)
  /\ childEnv !! "LC_ALL" = Some (VStr "en_US.UTF-8")
  /\ (forall name, name ∉ fastlaneNames ->
        childEnv !! name = VStr <$> (process_env !! name)).
Proof.
  unfold IosUtils.spread2, IosUtils.fastlaneEnvVars, IosUtils.processEnv.
  repeat split;
    try (apply lookup_union_Some_l; by simplify_map_eq).
  intros name Hname. rewrite lookup_union_r, lookup_fmap; [done|].
  unfold fastlaneNames in Hname. rewrite !not_elem_of_cons in Hname.
  destruct Hname as (? & ? & ? & ? & ? & ? & _).
  by simplify_map_eq.
Qed.

(** X2. Every process [runFastlane] starts is fastlane, with the arguments it
    was given and an environment in which the six fastlane variables hold
    the values of lines 265-272, the credentials among them, whatever the
    environment of the parent says; every other variable is inherited. *)
Theorem runFastlane_environment (st : state) (teamID password : val)
    (fastlaneArgs : list string) :
  exists childEnv : gmap string val,
    IosUtils.runFastlane teamID password fastlaneArgs st
    = (match spawnWithEnv (st_trace st) "fastlane" fastlaneArgs childEnv with
       | Ok _ => Ok tt
       | Throw e => Throw e
       end,
       State (st_heap st) (st_trace st ++ [ESpawn "fastlane" fastlaneArgs]))
    /\ childEnv !! "FASTLANE_TEAM_ID" = Some teamID
    /\ childEnv !! "FASTLANE_PASSWORD" = Some password
    /\ childEnv !! "FASTLANE_SKIP_UPDATE_CHECK" = Some (VNum 1)
    /\ childEnv !! "FASTLANE_DISABLE_COLORS" = Some (VNum 1)
    /\ childEnv !! "CI" = Some (VNum 1)
    /\ childEnv !! "LC_ALL" = Some (VStr "en_US.UTF-8")
    /\ (forall name, name ∉ fastlaneNames ->
          childEnv !! name = VStr <$> (process_env !! name)).
Proof.
  eexists. split; [apply spawnEnv_run|]. apply fastlaneEnv_lookup.
Qed.

(** X3. Without [client], or with a falsy one, [buildIPA] makes one request:
    fastlane's gym, with the credentials in its environment.  The outcome
    is that of the process, and the store is left as it was. *)
Theorem buildIPA_fastlane (st : state) (ipaPath workspace archivePath
    codeSignIdentity exportOptionsPlistPath keychainPath exportMethod : string)
    (teamID password client : val) :
  truthy client = false ->
  let args := gymArgs ipaPath workspace archivePath codeSignIdentity
                exportOptionsPlistPath keychainPath exportMethod in
  exists childEnv : gmap string val,
    IosUtils.buildIPA ipaPath workspace archivePath codeSignIdentity
      exportOptionsPlistPath keychainPath exportMethod teamID password client
      st
    = (match spawnWithEnv (st_trace st) "fastlane" args childEnv with
       | Ok _ => Ok tt
       | Throw e => Throw e
       end,
       State (st_heap st) (st_trace st ++ [ESpawn "fastlane" args]))
    /\ childEnv !! "FASTLANE_TEAM_ID" = Some teamID
    /\ childEnv !! "FASTLANE_PASSWORD" = Some password.
Proof.
  intros Hclient args.
  destruct (fastlaneEnv_lookup teamID password) as (Hteam & Hpassword & _).
  eexists. split; [|split; [exact Hteam|exact Hpassword]].
  unfold IosUtils.buildIPA.
  assert (truthy match client with
                 | VUndefined => VBool false
                 | _ => client
                 end = false) as ->
    by (by destruct client).
  unfold IosUtils.runFastlane. apply spawnEnv_run.
Qed.

(** X4. [resignIPA] copies the package first and starts fastlane only when the
    copy succeeded: a failed copy is the outcome, with the copy as the only
    request.  After a successful copy the second and last request is
    fastlane's resigning, run with the credentials, which decides the
    outcome. *)
Theorem resignIPA_sequence (st : state) (codeSignIdentity entitlementsPath
    provisioningProfilePath sourceIpaPath destIpaPath keychainPath : string)
    (teamID password : val) :
  let copy := copy_ipa sourceIpaPath destIpaPath in
  let args := sighArgs codeSignIdentity entitlementsPath
                provisioningProfilePath destIpaPath keychainPath in
  let outcome :=
    IosUtils.resignIPA codeSignIdentity entitlementsPath
      provisioningProfilePath sourceIpaPath destIpaPath keychainPath
      teamID password st in
  match spawnAsyncThrowError (st_trace st) "cp"
          ["-rf"; sourceIpaPath; destIpaPath] with
  | Throw e =>
      outcome = (Throw e, State (st_heap st) (st_trace st ++ [copy]))
  | Ok _ =>
      exists childEnv : gmap string val,
        outcome
        = (match spawnWithEnv (st_trace st ++ [copy]) "fastlane" args
                   childEnv with
           | Ok _ => Ok tt
           | Throw e => Throw e
           end,
           State (st_heap st)
                 (st_trace st ++ [copy; ESpawn "fastlane" args]))
        /\ childEnv !! "FASTLANE_TEAM_ID" = Some teamID
        /\ childEnv !! "FASTLANE_PASSWORD" = Some password
  end.
Proof.
  intros copy args outcome. subst outcome. unfold IosUtils.resignIPA.
  destruct (spawnAsyncThrowError _ _ _) as [output|e] eqn:Hcopy.
  - destruct (fastlaneEnv_lookup teamID password)
      as (Hteam & Hpassword & _).
    eexists. split; [|split; [exact Hteam|exact Hpassword]].
    unfold bind. rewrite (spawn_run _ _ _ _ Hcopy). fold copy.
    fold args. unfold IosUtils.runFastlane. rewrite spawnEnv_run.
    cbn [st_heap st_trace]. by rewrite <- app_assoc.
  - unfold bind. rewrite (spawn_throw _ _ _ _ Hcopy). reflexivity.
Qed.

End Processes.

(** ** More on the export method and the merge *)

(** X5. [resolveExportMethod] throws only on [undefined] and [null] (a
    [TypeError]); on every other value it returns one of the three export
    methods.  It never changes the store and makes no request. *)
Theorem resolveExportMethod_range (st : state) (plistData : val) :
  exists outcome : result string,
    IosUtils.resolveExportMethod plistData st = (outcome, st)
    /\ match plistData with
       | VUndefined | VNull => outcome = Throw TypeError
       | _ => exists method, outcome = Ok method /\ method ∈ exportMethods
       end.
Proof.
  unfold IosUtils.resolveExportMethod, exportMethods.
  destruct plistData as [| |b|n|s|l];
    try (eexists; split; [reflexivity|reflexivity]).
  all: unfold bind at 1, get_property at 1, bind at 1, get_heap at 1.
  all: match goal with
       | |- context [spread_props ?h ?v !! ?k] =>
           destruct (spread_props h v !! k) as [devices|];
           [|destruct (length_of h v)]
       end.
  all: unfold ret at 1.
  all: match goal with
       | |- context [truthy ?d] => destruct (truthy d)
       end.
  all: try (eexists; split; [reflexivity|];
            eexists; split; [reflexivity|]; set_solver).
  all: unfold bind at 1, get_property at 1, bind at 1, get_heap at 1.
  all: match goal with
       | |- context [spread_props ?h ?v !! ?k] =>
           destruct (spread_props h v !! k) as [flag|];
           [|destruct (length_of h v)]
       end.
  all: unfold ret at 1.
  all: match goal with
       | |- context [is_true_strict ?d] => destruct (is_true_strict d)
       end.
  all: eexists; split; [reflexivity|];
       eexists; split; [reflexivity|]; set_solver.
Qed.

Lemma effectiveTransferRules_spec (k : string) :
  k ∈ effectiveTransferRules
  <-> k ∈ IosUtils.entitlementTransferRules
      /\ k ∉ IosUtils.blacklistedEntitlementKeys.
Proof.
  assert (effectiveTransferRules
          = filter (fun k => k ∉ IosUtils.blacklistedEntitlementKeys)
              IosUtils.entitlementTransferRules) as ->
    by (vm_compute; reflexivity).
  rewrite list_elem_of_filter. tauto.
Qed.

(** X6. Where the entries of the result come from: an entry is an entry of the
    profile, or it is the archive's entry for one of the four transfer rules
    that are not blacklisted.  Those four always take the archive's entry
    when there is one; the other nine rules never have an effect. *)
Theorem merge_provenance (st : state) (profile archive : nat)
    (P A : gmap string val) :
  st_heap st !! profile = Some (OPlain P) ->
  st_heap st !! archive = Some (OPlain A) ->
  exists (result : nat) (R : gmap string val) (st' : state),
    IosUtils.mergeEntitlements (VRef profile) (VRef archive) st
    = (Ok (VRef result), st')
    /\ st_heap st' !! result = Some (OPlain R)
    /\ (forall k v, R !! k = Some v ->
          P !! k = Some v \/ (k ∈ effectiveTransferRules /\ A !! k = Some v))
    /\ (forall k v, k ∈ effectiveTransferRules -> A !! k = Some v ->
          R !! k = Some v)
    /\ (forall k, k ∉ effectiveTransferRules ->
          R !! k = None \/ R !! k = P !! k).
Proof.
  intros HP HA.
  destruct (mergeWith_plain IosUtils.entitlementTransferRules
              IosUtils.blacklistedEntitlementKeys st (VRef profile) archive A HA)
    as (working & R & Hrun & HR).
  cbn [spread_props] in HR. rewrite HP in HR. cbn [own_enumerable] in HR.
  exists (S (length (st_heap st))), R. eexists.
  split; [exact Hrun|]. split; [apply lookup_result|].
  repeat split.
  - intros k v. rewrite HR. unfold merged_at.
    destruct (decide (k ∈ dropped _)) as [Hd|Hd]; [done|].
    destruct (decide (k ∈ IosUtils.entitlementTransferRules)); [|by left].
    destruct (A !! k) as [x|] eqn:HAk; [|by left].
    intros [= <-]. right. split; [|done].
    apply effectiveTransferRules_spec. split; [done|].
    rewrite dropped_iff in Hd. tauto.
  - intros k v Hk HAk. apply effectiveTransferRules_spec in Hk as [Hr Hb].
    rewrite HR. unfold merged_at.
    rewrite decide_False
      by (apply not_dropped; [done|by apply transferRules_not_guarded]).
    by rewrite decide_True, HAk.
  - intros k Hk. rewrite HR. unfold merged_at.
    destruct (decide (k ∈ dropped _)) as [Hd|Hd]; [by left|].
    right. destruct (decide (k ∈ IosUtils.entitlementTransferRules)); [|done].
    destruct Hk. apply effectiveTransferRules_spec. split; [done|].
    rewrite dropped_iff in Hd. tauto.
Qed.

Lemma merged_at_again (rules blacklist : list string) (P A R : gmap string val)
    (k : string) :
  (forall k, R !! k = merged_at rules blacklist P A k) ->
  merged_at rules blacklist R A k = R !! k.
Proof.
  intros HR. pose proof (HR k) as Hk. unfold merged_at in *.
  destruct (decide (k ∈ blacklist)); [done|].
  destruct (decide (k ∈ rules)); [|done].
  by destruct (A !! k).
Qed.

(** X7. Merging the result once more with the same archive changes nothing: the
    second result is a new object holding the same dictionary. *)
Theorem merge_idempotent (st : state) (profile archive : nat)
    (P A : gmap string val) :
  st_heap st !! profile = Some (OPlain P) ->
  st_heap st !! archive = Some (OPlain A) ->
  exists (first second : nat) (R : gmap string val) (st' st'' : state),
    IosUtils.mergeEntitlements (VRef profile) (VRef archive) st
    = (Ok (VRef first), st')
    /\ st_heap st' !! first = Some (OPlain R)
    /\ IosUtils.mergeEntitlements (VRef first) (VRef archive) st'
       = (Ok (VRef second), st'')
    /\ first <> second
    /\ st_heap st'' !! second = Some (OPlain R)
    /\ st_heap st'' !! first = Some (OPlain R).
Proof.
  intros HP HA.
  destruct (mergeWith_plain IosUtils.entitlementTransferRules
              IosUtils.blacklistedEntitlementKeys st (VRef profile) archive A HA)
    as (working & R & Hrun & HR).
  cbn [spread_props] in HR. rewrite HP in HR. cbn [own_enumerable] in HR.
  set (st' := State (st_heap st ++ [OPlain working; OPlain R]) (st_trace st))
    in *.
  assert (st_heap st' !! archive = Some (OPlain A)) as HA'
    by (by apply lookup_app_old).
  assert (st_heap st' !! S (length (st_heap st)) = Some (OPlain R)) as HR'
    by apply lookup_result.
  destruct (mergeWith_plain IosUtils.entitlementTransferRules
              IosUtils.blacklistedEntitlementKeys st'
              (VRef (S (length (st_heap st)))) archive A HA')
    as (working2 & R2 & Hrun2 & HR2).
  cbn [spread_props] in HR2. rewrite HR' in HR2. cbn [own_enumerable] in HR2.
  assert (R2 = R) as ->.
  { apply map_eq. intros k. rewrite HR2. by eapply merged_at_again. }
  exists (S (length (st_heap st))), (S (length (st_heap st'))), R, st'.
  eexists. split; [exact Hrun|]. split; [exact HR'|].
  split; [exact Hrun2|]. cbn [st_heap].
  split; [subst st'; cbn [st_heap]; rewrite length_app; cbn; lia|].
  split; [apply lookup_result|]. by apply lookup_app_old.
Qed.

(** *** An archive whose plist is an array *)

(** An array or a buffer has no property named like a transfer rule. *)
Lemma has_property_indexed (h : list object) (archive : nat) (o : object)
    (k : string) :
  h !! archive = Some o ->
  is_indexed o = true ->
  starts_with_digit k = false ->
  k <> "length" ->
  has_property h k archive = false.
Proof.
  intros Ho Hindexed Hk Hlength. unfold has_property.
  apply orb_false_intro.
  - apply bool_decide_eq_false. intros Hdom.
    unfold spread_props in Hdom. rewrite Ho in Hdom.
    destruct o as [props|elems|bytes]; [done|..];
      apply index_props_dom in Hdom; congruence.
  - apply andb_false_intro1. by apply String.eqb_neq.
Qed.

Lemma transfer_indexed (h : list object) (archive : nat) (o : object)
    (rules : list string) (working : gmap string val) :
  h !! archive = Some o ->
  is_indexed o = true ->
  Forall (fun k => starts_with_digit k = false /\ k <> "length") rules ->
  foldl (transfer h archive) working rules = working.
Proof.
  intros Ho Hindexed Hrules. revert working.
  induction Hrules as [|k rules [Hk Hlength] _ IH]; intros working; [done|].
  cbn [foldl]. unfold transfer at 2.
  by rewrite (has_property_indexed h archive o k), IH.
Qed.

(** X8. When the archive's plist is an array (or the archive value a buffer)
    nothing fails and nothing is transferred: the result is the profile
    without the blacklisted keys and without the three keys [pickBy] never
    copies. *)
Theorem merge_indexed_archive (st : state) (profile : val) (archive : nat)
    (o : object) :
  st_heap st !! archive = Some o ->
  is_indexed o = true ->
  exists (R : gmap string val) (st' : state),
    IosUtils.mergeEntitlements profile (VRef archive) st
    = (Ok (VRef (S (length (st_heap st)))), st')
    /\ st_heap st' !! S (length (st_heap st)) = Some (OPlain R)
    /\ (forall k, R !! k
          = if decide (k ∈ IosUtils.blacklistedEntitlementKeys
                       \/ k ∈ Lodash.guardedKeys) then None
            else spread_props (st_heap st) profile !! k).
Proof.
  intros Ho Hindexed. destruct st as [h tr]. cbn [st_heap] in *.
  eexists _, _. split; [apply mergeWith_run; eauto|]. cbn [st_heap].
  split; [apply lookup_result|].
  rewrite (transfer_indexed h archive o) by
    (try done; repeat constructor; done).
  intros k. destruct (decide (_ \/ _)) as [Hb|Hb].
  - apply map_lookup_filter_None. right. intros x _.
    rewrite picked_iff, dropped_iff. tauto.
  - destruct (spread_props h profile !! k) as [x|] eqn:Hk.
    + apply map_lookup_filter_Some. split; [done|].
      apply picked_iff. by rewrite dropped_iff.
    + apply map_lookup_filter_None. by left.
Qed.

(** ** More on the fingerprint and the validation *)

Section FingerprintEdges.
Context `{forge : Forge} `{env : Env}.

Lemma password_text_falsy (h : list object) (passwordRaw : val) :
  truthy passwordRaw = false -> password_text h passwordRaw = "".
Proof. intros Hfalsy. unfold password_text, or_else. by rewrite Hfalsy. Qed.

(** X9. A password that is falsy ([undefined], [null], [false], [0], [NaN] or
    the empty string) is the empty password: the outcome is that of the
    call with [""]. *)
Theorem genCertFingerprint_falsy_password (st : state)
    (p12Buffer passwordRaw : val) :
  truthy passwordRaw = false ->
  IosUtils.genCertFingerprint p12Buffer passwordRaw st
  = IosUtils.genCertFingerprint p12Buffer (VStr "") st.
Proof.
  intros Hfalsy. rewrite !genCertFingerprint_run.
  by rewrite !password_text_falsy.
Qed.

(** X10. Only the first certificate bag counts.  When it holds a certificate the
    fingerprint is that certificate's, whatever the other bags are; when it
    holds none the function throws the error of line 35, even if a later
    bag holds a certificate. *)
Theorem genCertFingerprint_first_bag (st : state) (p12Buffer passwordRaw : val)
    (text : string) (p12Asn1 : asn1) (p12 : pkcs12)
    (first : option certificate) (others : list (option certificate)) :
  p12_text (st_heap st) p12Buffer = Some text ->
  asn1_fromDer (util_decode64 text) = Ok p12Asn1 ->
  pkcs12_pkcs12FromAsn1 p12Asn1 (password_text (st_heap st) passwordRaw)
  = Ok p12 ->
  getBags_certBag p12 = first :: others ->
  IosUtils.genCertFingerprint p12Buffer passwordRaw st
  = (match first with
     | None => Throw MissingCertificateBag
     | Some certData =>
         match pki_certificateToAsn1 certData with
         | Throw e => Throw e
         | Ok certAsn1 =>
             match asn1_toDer certAsn1 with
             | Throw e => Throw e
             | Ok certDer =>
                 Ok (Str.toUpperCase (ForgeUtil.toHex (Sha1.digest certDer)))
             end
         end
     end, st).
Proof.
  intros Htext Hder Hp12 Hbags. rewrite genCertFingerprint_run, Htext.
  unfold fingerprint_of. rewrite Hder, Hp12, Hbags. cbn [head].
  by destruct first.
Qed.

(** X11. The identities are listed only once there is a fingerprint: when the
    certificate file cannot be read, or the fingerprint cannot be computed,
    that error is the outcome and no process is started. *)
Theorem ensureCertificateValid_stops (st : state) (certPath : string)
    (certPassword : val) (teamID : string) :
  let read := EReadFile certPath in
  let outcome :=
    IosUtils.ensureCertificateValid certPath certPassword teamID st in
  match fs_readFile (st_trace st) certPath with
  | Throw e =>
      outcome = (Throw e, State (st_heap st) (st_trace st ++ [read]))
  | Ok bytes =>
      let st1 := State (st_heap st ++ [OBuffer bytes])
                       (st_trace st ++ [read]) in
      forall e,
        IosUtils.genCertFingerprint (VRef (length (st_heap st)))
          certPassword st1 = (Throw e, st1) ->
        outcome = (Throw e, st1)
  end.
Proof.
  intros read outcome. subst outcome.
  unfold IosUtils.ensureCertificateValid.
  destruct (fs_readFile _ _) as [bytes|e] eqn:Hread.
  - intros e Hfp. unfold bind at 1.
    rewrite (readFile_run _ _ _ Hread). fold read.
    unfold bind at 1. by rewrite Hfp.
  - unfold bind at 1.
    unfold IosUtils.readFile, bind, get_trace, emit, lift_result.
    cbn [st_heap st_trace]. by rewrite Hread.
Qed.

End FingerprintEdges.

(** ** More on the entitlements file *)

Section EntitlementsFile.
Context `{env : Env}.

Lemma createEntitlementsFile_single (st : state)
    (generatedEntitlementsPath : string) (plistData profile : val)
    (archivePath archiveEntitlementsPath : string) :
  get_property "Entitlements" plistData st = (Ok profile, st) ->
  glob (st_trace st) (entitlementsPattern archivePath)
  = Ok [archiveEntitlementsPath] ->
  IosUtils.createEntitlementsFile generatedEntitlementsPath plistData
    archivePath st
  = IosUtils.generateEntitlements generatedEntitlementsPath profile
      archiveEntitlementsPath
      (State (st_heap st)
             (st_trace st ++ [EGlob (entitlementsPattern archivePath)])).
Proof.
  intros Hprofile Hglob. unfold IosUtils.createEntitlementsFile.
  unfold bind at 1. rewrite Hprofile.
  unfold bind at 1. fold (entitlementsPattern archivePath).
  rewrite (globAsync_run _ _ _ Hglob). reflexivity.
Qed.

Lemma readFile_throw (st : state) (path : string) (e : js_error) :
  fs_readFile (st_trace st) path = Throw e ->
  IosUtils.readFile path st
  = (Throw e, State (st_heap st) (st_trace st ++ [EReadFile path])).
Proof.
  intros Hread. unfold IosUtils.readFile, bind, get_trace, emit, lift_result.
  cbn [st_heap st_trace]. rewrite Hread. reflexivity.
Qed.

(** The steps of lines 203-207 when the file is read. *)
Lemma generateEntitlements_parse (st : state)
    (generatedEntitlementsPath archiveEntitlementsPath : string)
    (profile : val) (bytes : list Byte.byte) :
  let h1 := st_heap st ++ [OBuffer bytes] in
  let tr1 := st_trace st ++ [EReadFile archiveEntitlementsPath] in
  fs_readFile (st_trace st) archiveEntitlementsPath = Ok bytes ->
  IosUtils.generateEntitlements generatedEntitlementsPath profile
    archiveEntitlementsPath st
  = match plist_parse (ToString h1 (VRef (length (st_heap st)))) h1 with
    | inl message =>
        (Throw (Error ("Error when parsing plist: " +:+ message)),
         State h1 tr1)
    | inr (archiveEntitlementsData, parsed) =>
        (generatedEntitlements <-
           IosUtils.mergeEntitlements profile archiveEntitlementsData ;;
         h <- get_heap ;;
         IosUtils.writeFile generatedEntitlementsPath
           (plist_build h generatedEntitlements) IosUtils.mode_755 ;;;
         output <- IosUtils.spawn "/usr/libexec/PlistBuddy"
                     ["-x"; "-c"; "Print"; generatedEntitlementsPath] ;;
         IosUtils.writeFile generatedEntitlementsPath (Ok (Str.join output))
           IosUtils.mode_755) (State (h1 ++ parsed) tr1)
    end.
Proof.
  intros h1 tr1 Hread. unfold IosUtils.generateEntitlements.
  unfold bind at 1. rewrite (readFile_run _ _ _ Hread). fold h1 tr1.
  unfold bind at 1. unfold IosUtils.js_String, bind at 1, get_heap, ret.
  cbn [st_heap].
  unfold bind at 1. unfold IosUtils.parsePlist. cbn [st_heap st_trace].
  destruct (plist_parse _ _) as [message|[data parsed]]; reflexivity.
Qed.

(** X12. With one entitlements file in the archive: when the file cannot be
    read, the error of the read is the outcome; when its text does not
    parse, the outcome is the error of line 206, which carries the parser's
    message.  In both cases the function stops after the read: no file is
    written and no process is started. *)
Theorem createEntitlementsFile_unparsed (st : state)
    (generatedEntitlementsPath : string) (plistData profile : val)
    (archivePath archiveEntitlementsPath : string) :
  let search := EGlob (entitlementsPattern archivePath) in
  let read := EReadFile archiveEntitlementsPath in
  let outcome :=
    IosUtils.createEntitlementsFile generatedEntitlementsPath plistData
      archivePath st in
  get_property "Entitlements" plistData st = (Ok profile, st) ->
  glob (st_trace st) (entitlementsPattern archivePath)
  = Ok [archiveEntitlementsPath] ->
  match fs_readFile (st_trace st ++ [search]) archiveEntitlementsPath with
  | Throw e =>
      outcome
      = (Throw e, State (st_heap st) (st_trace st ++ [search; read]))
  | Ok bytes =>
      forall message,
        plist_parse
          (ToString (st_heap st ++ [OBuffer bytes])
             (VRef (length (st_heap st))))
          (st_heap st ++ [OBuffer bytes]) = inl message ->
        outcome
        = (Throw (Error ("Error when parsing plist: " +:+ message)),
           State (st_heap st ++ [OBuffer bytes])
                 (st_trace st ++ [search; read]))
  end.
Proof.
  intros search read outcome Hprofile Hglob. subst outcome.
  rewrite (createEntitlementsFile_single _ _ _ _ _ _ Hprofile Hglob).
  fold search.
  destruct (fs_readFile _ _) as [bytes|e] eqn:Hread.
  - intros message Hparse.
    rewrite (generateEntitlements_parse (State _ _) _ _ _ _ Hread).
    cbn [st_heap st_trace]. rewrite Hparse. fold read.
    by rewrite <- app_assoc.
  - unfold IosUtils.generateEntitlements. unfold bind at 1.
    rewrite (readFile_throw (State _ _) _ _ Hread).
    cbn [st_heap st_trace]. fold read. by rewrite <- app_assoc.
Qed.

(** X13. A failure of [plist.build] is not looked at: when the archive's
    plist parses to a dictionary and the builder throws on the merged
    dictionary, the function still asks for the first write, with the error
    in the place of the text. *)
Theorem createEntitlementsFile_unchecked_build (st : state)
    (generatedEntitlementsPath : string) (plistData profile : val)
    (archivePath archiveEntitlementsPath : string) (bytes : list Byte.byte)
    (archive : nat) (parsed : list object) (A : gmap string val)
    (e : js_error) :
  let search := EGlob (entitlementsPattern archivePath) in
  let read := EReadFile archiveEntitlementsPath in
  let h1 := st_heap st ++ [OBuffer bytes] in
  let h2 := h1 ++ parsed in
  get_property "Entitlements" plistData st = (Ok profile, st) ->
  glob (st_trace st) (entitlementsPattern archivePath)
  = Ok [archiveEntitlementsPath] ->
  fs_readFile (st_trace st ++ [search]) archiveEntitlementsPath = Ok bytes ->
  plist_parse (ToString h1 (VRef (length (st_heap st)))) h1
  = inr (VRef archive, parsed) ->
  h2 !! archive = Some (OPlain A) ->
  plist_build (mergedStore h2 profile archive) (VRef (S (length h2)))
  = Throw e ->
  exists (outcome : result unit) (st' : state) (later : list event),
    IosUtils.createEntitlementsFile generatedEntitlementsPath plistData
      archivePath st = (outcome, st')
    /\ st_trace st'
       = st_trace st
         ++ [search; read;
             EWriteFile generatedEntitlementsPath (Throw e) IosUtils.mode_755]
         ++ later
    /\ mergedStore h2 profile archive !! S (length h2)
       = Some (OPlain (mergedProps h2 profile archive))
    /\ (forall k, mergedProps h2 profile archive !! k
          = merged_at IosUtils.entitlementTransferRules
              (dropped IosUtils.blacklistedEntitlementKeys)
              (spread_props h2 profile) A k).
Proof.
  intros search read h1 h2 Hprofile Hglob Hread Hparse HA Hbuild.
  assert (is_Some (h2 !! archive)) as Harchive by eauto.
  cut (exists (outcome : result unit) (st' : state) (later : list event),
         IosUtils.createEntitlementsFile generatedEntitlementsPath plistData
           archivePath st = (outcome, st')
         /\ st_trace st'
            = st_trace st
              ++ [search; read;
                  EWriteFile generatedEntitlementsPath (Throw e)
                    IosUtils.mode_755]
              ++ later).
  { intros (outcome & st' & later & Hrun & Htrace).
    exists outcome, st', later. split; [exact Hrun|]. split; [exact Htrace|].
    split; [apply mergedStore_result|].
    intros k. by apply mergedProps_lookup. }
  rewrite (createEntitlementsFile_single _ _ _ _ _ _ Hprofile Hglob).
  fold search.
  rewrite (generateEntitlements_parse (State _ _) _ _ _ _ Hread).
  cbn [st_heap st_trace]. fold h1 read. rewrite Hparse. fold h2.
  unfold bind at 1. rewrite (mergeEntitlements_run _ _ _ _ Harchive).
  unfold bind at 1, get_heap at 1. cbn [st_heap]. rewrite Hbuild.
  unfold bind at 1. unfold IosUtils.writeFile at 1.
  unfold bind at 1, get_trace at 1. cbn [st_trace].
  unfold bind at 1, emit at 1. cbn [st_heap st_trace].
  unfold lift_result at 1.
  destruct (fs_writeFile _ _ _ _) as [[]|e1].
  2:{ eexists _, _, []. split; [reflexivity|]. cbn [st_trace].
      by rewrite <- !app_assoc. }
  unfold bind at 1. unfold IosUtils.spawn at 1.
  unfold bind at 1, get_trace at 1. cbn [st_trace].
  unfold bind at 1, emit at 1. cbn [st_heap st_trace].
  unfold lift_result at 1.
  destruct (spawnAsyncThrowError _ _ _) as [output|e2].
  2:{ eexists _, _, [_]. split; [reflexivity|]. cbn [st_trace].
      by rewrite <- !app_assoc. }
  unfold IosUtils.writeFile.
  unfold bind at 1, get_trace at 1. cbn [st_trace].
  unfold bind at 1, emit at 1. cbn [st_heap st_trace].
  unfold lift_result at 1.
  eexists _, _, [_; _]. split; [reflexivity|]. cbn [st_trace].
  by rewrite <- !app_assoc.
Qed.

(** X14. The whole function when the requests succeed and the archive's
    plist is a dictionary: five requests in this order, the search, the
    read, the write of what [plist.build] made of the merged dictionary,
    PlistBuddy, and the write of its output.  The object given to
    [plist.build] is the result of the merge of the profile's entitlements
    and the archive's. *)
Theorem createEntitlementsFile_run (st : state)
    (generatedEntitlementsPath : string) (plistData profile : val)
    (archivePath archiveEntitlementsPath : string) (bytes : list Byte.byte)
    (archive : nat) (parsed : list object) (A : gmap string val)
    (output : list string) :
  let h1 := st_heap st ++ [OBuffer bytes] in
  let h2 := h1 ++ parsed in
  let h3 := mergedStore h2 profile archive in
  let built := plist_build h3 (VRef (S (length h2))) in
  let search := EGlob (entitlementsPattern archivePath) in
  let read := EReadFile archiveEntitlementsPath in
  let first := EWriteFile generatedEntitlementsPath built IosUtils.mode_755 in
  let print := ESpawn "/usr/libexec/PlistBuddy"
                 ["-x"; "-c"; "Print"; generatedEntitlementsPath] in
  let second := EWriteFile generatedEntitlementsPath (Ok (Str.join output))
                  IosUtils.mode_755 in
  get_property "Entitlements" plistData st = (Ok profile, st) ->
  glob (st_trace st) (entitlementsPattern archivePath)
  = Ok [archiveEntitlementsPath] ->
  fs_readFile (st_trace st ++ [search]) archiveEntitlementsPath = Ok bytes ->
  plist_parse (ToString h1 (VRef (length (st_heap st)))) h1
  = inr (VRef archive, parsed) ->
  h2 !! archive = Some (OPlain A) ->
  fs_writeFile (st_trace st ++ [search; read]) generatedEntitlementsPath built
    IosUtils.mode_755 = Ok tt ->
  spawnAsyncThrowError (st_trace st ++ [search; read; first])
    "/usr/libexec/PlistBuddy"
    ["-x"; "-c"; "Print"; generatedEntitlementsPath] = Ok output ->
  fs_writeFile (st_trace st ++ [search; read; first; print])
    generatedEntitlementsPath (Ok (Str.join output)) IosUtils.mode_755
  = Ok tt ->
  IosUtils.createEntitlementsFile generatedEntitlementsPath plistData
    archivePath st
  = (Ok tt, State h3 (st_trace st ++ [search; read; first; print; second]))
  /\ h3 !! S (length h2) = Some (OPlain (mergedProps h2 profile archive))
  /\ (forall k, mergedProps h2 profile archive !! k
        = merged_at IosUtils.entitlementTransferRules
            (dropped IosUtils.blacklistedEntitlementKeys)
            (spread_props h2 profile) A k).
Proof.
  intros h1 h2 h3 built search read first print second Hprofile Hglob Hread
    Hparse HA Hwrite1 Hspawn Hwrite2.
  split; [|split; [apply mergedStore_result|
                   intros k; by apply mergedProps_lookup]].
  rewrite (createEntitlementsFile_single _ _ _ _ _ _ Hprofile Hglob).
  fold search.
  rewrite (generateEntitlements_run
             (State (st_heap st) (st_trace st ++ [search]))
             generatedEntitlementsPath archiveEntitlementsPath profile bytes
             archive parsed output).
  - cbn [st_heap st_trace]. do 2 f_equal. by rewrite <- app_assoc.
  - exact Hread.
  - exact Hparse.
  - cbn [st_heap]. eauto.
  - cbn [st_heap st_trace]. rewrite <- Hwrite1. by rewrite <- app_assoc.
  - cbn [st_heap st_trace]. rewrite <- Hspawn. by rewrite <- app_assoc.
  - cbn [st_heap st_trace]. rewrite <- Hwrite2. by rewrite <- app_assoc.
Qed.

End EntitlementsFile.

(** ** The export options *)

Lemma append_length (a b : string) :
  String.length (a +:+ b) = String.length a + String.length b.
Proof.
  induction a as [|c a IH]; [reflexivity|].
  change (S (String.length (a +:+ b)) = S (String.length a + String.length b)).
  by rewrite IH.
Qed.

Lemma append_cancel_l (a x y : string) : a +:+ x = a +:+ y -> x = y.
Proof.
  induction a as [|c a IH]; [done|].
  change (String c (a +:+ x) = String c (a +:+ y) -> x = y).
  intros [= Heq]. by apply IH.
Qed.

Lemma append_cancel_r (a b c : string) : a +:+ c = b +:+ c -> a = b.
Proof.
  revert b. induction a as [|x a IH]; intros b Heq.
  - destruct b as [|y b]; [done|]. apply (f_equal String.length) in Heq.
    rewrite !append_length in Heq. cbn [String.length] in Heq. lia.
  - destruct b as [|y b].
    + apply (f_equal String.length) in Heq.
      rewrite !append_length in Heq. cbn [String.length] in Heq. lia.
    + change (String x (a +:+ c) = String y (b +:+ c)) in Heq.
      injection Heq as -> Heq. by rewrite (IH b Heq).
Qed.

(** X15. The template does not escape what it interpolates: text that closes
    the method's element inside the method gives the same file as that text
    inside the team, so the file does not tell the fields apart. *)
Theorem createExportOptionsPlist_unescaped
    (bundleIdentifier provisioningProfileUUID exportMethod teamID extra
     : string) :
  IosUtils.createExportOptionsPlist bundleIdentifier provisioningProfileUUID
    (exportMethod +:+ IosUtils.afterMethod +:+ extra) teamID
  = IosUtils.createExportOptionsPlist bundleIdentifier provisioningProfileUUID
      exportMethod (extra +:+ IosUtils.afterMethod +:+ teamID)
  /\ exportMethod +:+ IosUtils.afterMethod +:+ extra <> exportMethod.
Proof.
  split.
  - unfold IosUtils.createExportOptionsPlist.
    do 24 (apply (f_equal (String.append _))).
    by rewrite !append_assoc.
  - intros Heq. apply (f_equal String.length) in Heq.
    rewrite !append_length in Heq.
    assert (String.length IosUtils.afterMethod = 44) as Hlen
      by (vm_compute; reflexivity).
    lia.
Qed.

(** X16. When three of the four fields are known, the file tells the fourth:
    two files that differ in one field only are different. *)
Theorem createExportOptionsPlist_injective
    (bundleIdentifier provisioningProfileUUID exportMethod teamID other
     : string) :
  (IosUtils.createExportOptionsPlist bundleIdentifier provisioningProfileUUID
     exportMethod teamID
   = IosUtils.createExportOptionsPlist bundleIdentifier provisioningProfileUUID
       other teamID -> exportMethod = other)
  /\ (IosUtils.createExportOptionsPlist bundleIdentifier
        provisioningProfileUUID exportMethod teamID
      = IosUtils.createExportOptionsPlist bundleIdentifier
          provisioningProfileUUID exportMethod other -> teamID = other)
  /\ (IosUtils.createExportOptionsPlist bundleIdentifier
        provisioningProfileUUID exportMethod teamID
      = IosUtils.createExportOptionsPlist other provisioningProfileUUID
          exportMethod teamID -> bundleIdentifier = other)
  /\ (IosUtils.createExportOptionsPlist bundleIdentifier
        provisioningProfileUUID exportMethod teamID
      = IosUtils.createExportOptionsPlist bundleIdentifier other
          exportMethod teamID -> provisioningProfileUUID = other).
Proof.
  unfold IosUtils.createExportOptionsPlist.
  repeat split; intros Heq;
    repeat (apply append_cancel_l in Heq);
    by apply append_cancel_r in Heq.
Qed.

(** ** The rest of the module, in the small world *)

Lemma buildIPA_client_throws_witness :
  @IosUtils.buildIPA Sample.host "build/App.ipa" "App.xcworkspace"
    "App.xcarchive" "iPhone Distribution" "options.plist" "build.keychain"
    "app-store" (VStr "TEAM123456") (VStr "secret") (VBool true) Sample.start
  = (Throw TypeError, Sample.start).
Proof.
  apply (@buildIPA_client_throws Sample.host). reflexivity.
Defined.

Lemma resignIPA_sequence_witness :
  @IosUtils.resignIPA Sample.noProcess Sample.host "iPhone Distribution"
    "out.entitlements" "dist.mobileprovision" "App.ipa" "Signed.ipa"
    "build.keychain" (VStr "TEAM123456") (VStr "secret") Sample.start
  = (Throw (Error "spawn ENOENT"), State [] [copy_ipa "App.ipa" "Signed.ipa"]).
Proof.
  exact (@resignIPA_sequence Sample.noProcess Sample.host Sample.start
           "iPhone Distribution" "out.entitlements" "dist.mobileprovision"
           "App.ipa" "Signed.ipa" "build.keychain" (VStr "TEAM123456")
           (VStr "secret")).
Defined.

Lemma ensureCertificateValid_stops_witness :
  @IosUtils.ensureCertificateValid Sample.forge Sample.noFiles "dist.p12"
    (VStr "secret") "TEAM123456" Sample.start
  = (Throw (Error "ENOENT: no such file or directory"),
     State [] [EReadFile "dist.p12"]).
Proof.
  exact (@ensureCertificateValid_stops Sample.forge Sample.noFiles
           Sample.start "dist.p12" (VStr "secret") "TEAM123456").
Defined.

Lemma merge_provenance_witness :
  exists (result : nat) (R : gmap string val) (st' : state),
    IosUtils.mergeEntitlements (VRef 0) (VRef 1) frame_store
    = (Ok (VRef result), st')
    /\ st_heap st' !! result = Some (OPlain R)
    /\ (forall k v, R !! k = Some v ->
          ({["get-task-allow" := VBool false;
             "keychain-access-groups" := VStr "p";
             "com.apple.developer.maps" := VBool true]} : gmap string val)
            !! k = Some v
          \/ (k ∈ effectiveTransferRules
              /\ ({["keychain-access-groups" := VStr "a"]} : gmap string val)
                   !! k = Some v))
    /\ (forall k v, k ∈ effectiveTransferRules ->
          ({["keychain-access-groups" := VStr "a"]} : gmap string val) !! k
          = Some v ->
          R !! k = Some v)
    /\ (forall k, k ∉ effectiveTransferRules ->
          R !! k = None
          \/ R !! k
             = ({["get-task-allow" := VBool false;
                  "keychain-access-groups" := VStr "p";
                  "com.apple.developer.maps" := VBool true]}
                  : gmap string val) !! k).
Proof.
  apply (merge_provenance frame_store 0 1); reflexivity.
Defined.

Lemma merge_idempotent_witness :
  exists (first second : nat) (R : gmap string val) (st' st'' : state),
    IosUtils.mergeEntitlements (VRef 0) (VRef 1) frame_store
    = (Ok (VRef first), st')
    /\ st_heap st' !! first = Some (OPlain R)
    /\ IosUtils.mergeEntitlements (VRef first) (VRef 1) st'
       = (Ok (VRef second), st'')
    /\ first <> second
    /\ st_heap st'' !! second = Some (OPlain R)
    /\ st_heap st'' !! first = Some (OPlain R).
Proof.
  apply (merge_idempotent frame_store 0 1
           {["get-task-allow" := VBool false;
             "keychain-access-groups" := VStr "p";
             "com.apple.developer.maps" := VBool true]}
           {["keychain-access-groups" := VStr "a"]}); reflexivity.
Defined.

Lemma merge_indexed_archive_witness :
  exists (R : gmap string val) (st' : state),
    IosUtils.mergeEntitlements (VRef 0) (VRef 1) Sample.arrayArchive
    = (Ok (VRef 3), st')
    /\ st_heap st' !! 3 = Some (OPlain R)
    /\ (forall k, R !! k
          = if decide (k ∈ IosUtils.blacklistedEntitlementKeys
                       \/ k ∈ Lodash.guardedKeys) then None
            else spread_props (st_heap Sample.arrayArchive) (VRef 0) !! k).
Proof.
  apply (merge_indexed_archive Sample.arrayArchive (VRef 0) 1
           (OArray [VStr "keychain-access-groups"])); reflexivity.
Defined.

Lemma genCertFingerprint_falsy_password_witness :
  @IosUtils.genCertFingerprint Sample.forge Sample.env (VStr "MIIB") (VNum 0)
    Sample.start
  = @IosUtils.genCertFingerprint Sample.forge Sample.env (VStr "MIIB")
      (VStr "") Sample.start.
Proof.
  apply (@genCertFingerprint_falsy_password Sample.forge Sample.env).
  reflexivity.
Defined.

Lemma genCertFingerprint_first_bag_witness :
  @IosUtils.genCertFingerprint Sample.emptyFirstBag Sample.env (VStr "MIIB")
    VUndefined Sample.start
  = (Throw MissingCertificateBag, Sample.start).
Proof.
  apply (@genCertFingerprint_first_bag Sample.emptyFirstBag Sample.env
           Sample.start (VStr "MIIB") VUndefined "MIIB" "MIIB"
           [None; Some "MIIB"] None [Some "MIIB"]); reflexivity.
Defined.

Lemma createEntitlementsFile_unparsed_witness :
  @IosUtils.createEntitlementsFile Sample.noPlist "out.entitlements" (VRef 0)
    "App.xcarchive" Sample.profile
  = (Throw (Error "Error when parsing plist: Unexpected end of input"),
     State [OPlain ∅; OBuffer []]
       [EGlob "App.xcarchive/Products/Applications/ExpoKitApp.app/*.entitlements";
        EReadFile Sample.archiveFile]).
Proof.
  apply (@createEntitlementsFile_unparsed Sample.noPlist Sample.profile
           "out.entitlements" (VRef 0) VUndefined "App.xcarchive"
           Sample.archiveFile eq_refl eq_refl "Unexpected end of input").
  reflexivity.
Defined.

Lemma createEntitlementsFile_unchecked_build_witness :
  exists (outcome : result unit) (st' : state) (later : list event),
    @IosUtils.createEntitlementsFile Sample.noBuild "out.entitlements"
      (VRef 0) "App.xcarchive" Sample.entitled = (outcome, st')
    /\ st_trace st'
       = [EGlob "App.xcarchive/Products/Applications/ExpoKitApp.app/*.entitlements";
          EReadFile Sample.archiveFile;
          EWriteFile "out.entitlements"
            (Throw (Error "Cannot build <key>get-task-allow</key><key>keychain-access-groups</key>"))
            493]
         ++ later.
Proof.
  destruct (@createEntitlementsFile_unchecked_build Sample.noBuild
              Sample.entitled "out.entitlements" (VRef 0) (VRef 1)
              "App.xcarchive" Sample.archiveFile [] 3
              [OPlain {["keychain-access-groups" := VStr "TEAM123456.*"]}]
              {["keychain-access-groups" := VStr "TEAM123456.*"]}
              (Error "Cannot build <key>get-task-allow</key><key>keychain-access-groups</key>")
              eq_refl eq_refl eq_refl eq_refl eq_refl eq_refl)
    as (outcome & st' & later & Hrun & Htrace & _).
  exists outcome, st', later. split; [exact Hrun|exact Htrace].
Defined.

Lemma createEntitlementsFile_run_witness :
  @IosUtils.createEntitlementsFile Sample.listing "out.entitlements" (VRef 0)
    "App.xcarchive" Sample.entitled
  = (Ok tt,
     State [OPlain {["Entitlements" := VRef 1]};
            OPlain {["get-task-allow" := VBool true;
                     "com.apple.developer.maps" := VBool true]};
            OBuffer [];
            OPlain {["keychain-access-groups" := VStr "TEAM123456.*"]};
            OPlain {["get-task-allow" := VBool true;
                     "com.apple.developer.maps" := VBool true;
                     "keychain-access-groups" := VStr "TEAM123456.*"]};
            OPlain {["get-task-allow" := VBool true;
                     "keychain-access-groups" := VStr "TEAM123456.*"]}]
       [EGlob "App.xcarchive/Products/Applications/ExpoKitApp.app/*.entitlements";
        EReadFile Sample.archiveFile;
        EWriteFile "out.entitlements"
          (Ok "<dict><key>get-task-allow</key><key>keychain-access-groups</key></dict>")
          493;
        ESpawn "/usr/libexec/PlistBuddy"
          ["-x"; "-c"; "Print"; "out.entitlements"];
        EWriteFile "out.entitlements" (Ok "") 493]).
Proof.
  destruct (@createEntitlementsFile_run Sample.listing Sample.entitled
              "out.entitlements" (VRef 0) (VRef 1) "App.xcarchive"
              Sample.archiveFile [] 3
              [OPlain {["keychain-access-groups" := VStr "TEAM123456.*"]}]
              {["keychain-access-groups" := VStr "TEAM123456.*"]} []
              eq_refl eq_refl eq_refl eq_refl eq_refl eq_refl eq_refl eq_refl)
    as (Hrun & _ & _).
  rewrite Hrun. vm_compute. reflexivity.
Defined.

Lemma buildIPA_fastlane_witness :
  exists childEnv : gmap string val,
    @IosUtils.buildIPA Sample.host "build/App.ipa" "App.xcworkspace"
      "App.xcarchive" "iPhone Distribution" "options.plist" "build.keychain"
      "app-store" (VStr "TEAM123456") (VStr "secret") VUndefined Sample.start
    = (match @spawnWithEnv Sample.host [] "fastlane"
               (@gymArgs Sample.host "build/App.ipa" "App.xcworkspace"
                  "App.xcarchive" "iPhone Distribution" "options.plist"
                  "build.keychain" "app-store") childEnv with
       | Ok _ => Ok tt
       | Throw e => Throw e
       end,
       State []
         [ESpawn "fastlane"
            (@gymArgs Sample.host "build/App.ipa" "App.xcworkspace"
               "App.xcarchive" "iPhone Distribution" "options.plist"
               "build.keychain" "app-store")])
    /\ childEnv !! "FASTLANE_TEAM_ID" = Some (VStr "TEAM123456")
    /\ childEnv !! "FASTLANE_PASSWORD" = Some (VStr "secret").
Proof.
  apply (@buildIPA_fastlane Sample.host Sample.start). reflexivity.
Defined.
